(** * Search index of mkdocs: [mkdocs/contrib/search/search_index.py]

    A shallow embedding of [SearchIndex], [ContentSection] and
    [ContentParser], and the properties of the index builder that the
    specification of the search core states.

    Python strings are sequences of Unicode code points; they are modelled
    as lists of code points ([N]), so that U+00A0 and the Unicode notion of
    whitespace used by [str.strip] are the ones of the interpreter. *)

From Stdlib Require Import NArith ZArith Lia Ascii String DecimalString.
From stdpp Require Import base decidable option numbers list.
Import ListNotations.

Set Warnings "-register-all".

(** ** Strings *)

Abbreviation pystr := (list N).

(** A literal: the code points of an ASCII string. *)
Definition py (s : string) : pystr := map N_of_ascii (list_ascii_of_string s).
Arguments py s%_string.

(** [sep.join(parts)] *)
Fixpoint join (sep : pystr) (parts : list pystr) : pystr :=
  match parts with
  | [] => []
  | [x] => x
  | x :: rest => x ++ sep ++ join sep rest
  end.

(** [str.isspace] on one code point, the set [str.strip()] removes:
    the characters of bidirectional type WS, B or S and of category Zs. *)
Definition py_isspace (c : N) : bool :=
  ((9 <=? c) && (c <=? 13) || (28 <=? c) && (c <=? 32) || (c =? 133) || (c =? 160)
   || (c =? 5760) || (8192 <=? c) && (c <=? 8202) || (c =? 8232) || (c =? 8233)
   || (c =? 8239) || (c =? 8287) || (c =? 12288))%N.

(** The character class [[ \t\n\r\f\v]] of the pattern in [_add_entry]. *)
Definition re_space_class (c : N) : bool :=
  ((c =? 32) || (c =? 9) || (c =? 10) || (c =? 13) || (c =? 12) || (c =? 11))%N.

Definition SPACE : N := 32.
Definition NEWLINE : N := 10.
Definition NBSP : N := 160.

(** [s.replace(old, new)] for one-character [old] and [new]. *)
Definition replace_char (old new : N) (s : pystr) : pystr :=
  map (fun c => if (c =? old)%N then new else c) s.

(** [s.lstrip(...)], [s.rstrip(...)]: drop the longest prefix (suffix) of
    characters of the set [p]. *)
Fixpoint lstrip (p : N -> bool) (s : pystr) : pystr :=
  match s with
  | [] => []
  | c :: rest => if p c then lstrip p rest else s
  end.

Definition rstrip (p : N -> bool) (s : pystr) : pystr :=
  reverse (lstrip p (reverse s)).

(** [s.strip()] *)
Definition strip (s : pystr) : pystr := rstrip py_isspace (lstrip py_isspace s).

(** [s.rstrip('\n')] *)
Definition rstrip_newline (s : pystr) : pystr := rstrip (N.eqb NEWLINE) s.

(** [re.sub(r'[ \t\n\r\f\v]+', ' ', s)]: every maximal run of characters of
    the class becomes one space. [in_run] tells that the character before
    belongs to a run whose space is already written. *)
Fixpoint re_sub_from (in_run : bool) (s : pystr) : pystr :=
  match s with
  | [] => []
  | c :: rest =>
      if re_space_class c
      then (if in_run then re_sub_from true rest else SPACE :: re_sub_from true rest)
      else c :: re_sub_from false rest
  end.

Definition re_sub_spaces (s : pystr) : pystr := re_sub_from false s.

(** The two assignments to [text] in [_add_entry]. *)
Definition normalize_text (text : pystr) : pystr :=
  let text := replace_char NBSP SPACE text in
  re_sub_spaces (strip text).

(** ** Python values that reach the serializer *)

Inductive pyval : Type :=
| PNone
| PBool (b : bool)
| PInt (z : Z)
| PFloat (repr : pystr)          (* a float, by its [repr] *)
| PStr (s : pystr)
| PList (items : list pyval)
| PDict (items : list (pystr * pyval))
| PObj (str : pystr).            (* any other object, by its [str()] *)

Inductive exn : Type :=
| OSError (msg : pystr)
| ValueError (msg : pystr)
| TypeError (msg : pystr)
| AssertionError
| OtherError (msg : pystr).

Definition exn_str (e : exn) : pystr :=
  match e with
  | OSError m | ValueError m | TypeError m | OtherError m => m
  | AssertionError => []
  end.

(** ** The entry store *)

Record Entry := mkEntry {
  e_title : option pystr;
  e_text : pystr;
  e_location : pystr
}.

(** The value of [prebuild_index]: one of [False], [True], ['node'],
    ['python'] in the plugin's schema, a boolean or a string here. *)
Inductive prebuild_choice : Type :=
| PrebuildBool (b : bool)
| PrebuildStr (s : pystr).

(** [self.config]: the keys the class reads, and the other keyword
    arguments of the constructor, which are only serialized ([others] holds
    keys different from the four named ones, each once). *)
Record Config := mkConfig {
  indexing : pystr;
  full_path_in_title : bool;
  prebuild_index : prebuild_choice;
  lang : pyval;
  others : list (pystr * pyval)
}.

Record SearchIndex := mkSearchIndex {
  _entries : list Entry;
  config : Config
}.

(** The constructor: an empty store and the keyword arguments as [config]. *)
Definition SearchIndex_init (c : Config) : SearchIndex :=
  {| _entries := []; config := c |}.

Definition _add_entry (self : SearchIndex) (title : option pystr) (text loc : pystr)
  : SearchIndex :=
  let text := replace_char NBSP SPACE text in
  let text := re_sub_spaces (strip text) in
  {| _entries := _entries self ++ [ {| e_title := title; e_text := text; e_location := loc |} ];
     config := config self |}.

(** ** The table of contents: [mkdocs.structure.toc]

    [TableOfContents] iterates over its top-level [AnchorLink] items; the
    class reads [id], [title], [url] and [children] of an item. *)

Inductive AnchorLink : Type := mkAnchorLink {
  al_id : pystr;
  al_title : pystr;
  al_url : pystr;
  al_children : list AnchorLink
}.

Abbreviation TableOfContents := (list AnchorLink).

(** [toc_item.id == id_], where [id_] is [None] or a string. *)
Definition id_matches (toc_item : AnchorLink) (id_ : option pystr) : bool :=
  bool_decide (Some (al_id toc_item) = id_).

(** The body of the loop of [_find_toc_by_id] for one item, and the loop. *)
Fixpoint _find_toc_item (id_ : option pystr) (toc_item : AnchorLink) : option AnchorLink :=
  if id_matches toc_item id_ then Some toc_item
  else
    (fix loop (toc : list AnchorLink) : option AnchorLink :=
       match toc with
       | [] => None
       | child :: rest =>
           match _find_toc_item id_ child with
           | Some toc_item_r => Some toc_item_r
           | None => loop rest
           end
       end) (al_children toc_item).

Fixpoint _find_toc_by_id (toc : TableOfContents) (id_ : option pystr) : option AnchorLink :=
  match toc with
  | [] => None
  | toc_item :: rest =>
      match _find_toc_item id_ toc_item with
      | Some r => Some r
      | None => _find_toc_by_id rest id_
      end
  end.

(** Document order: a node, then its children's subtrees, left to right. *)
Fixpoint preorder_item (toc_item : AnchorLink) : list AnchorLink :=
  toc_item :: flat_map preorder_item (al_children toc_item).

Definition preorder (toc : TableOfContents) : list AnchorLink :=
  flat_map preorder_item toc.

(** ** [ContentSection] and [ContentParser] *)

Record ContentSection := mkContentSection {
  cs_text : list pystr;
  cs_id : option pystr;
  cs_title : option pystr
}.

(** [ContentSection()] with the default arguments. *)
Definition ContentSection_new : ContentSection :=
  {| cs_text := []; cs_id := None; cs_title := None |}.

(** [str(x)] of a natural number. *)
Definition str_of_nat (x : nat) : pystr := py (NilEmpty.string_of_uint (Nat.to_uint x)).

(** [tuple(f"h{x}" for x in range(1, 7))] *)
Definition _HEADER_TAGS : list pystr := map (fun x => py "h" ++ str_of_nat x) (seq 1 6).

Definition is_header (tag : pystr) : bool := bool_decide (tag ∈ _HEADER_TAGS).

(** What [HTMLParser.feed] and [close] dispatch to the handlers. The class
    overrides three of them; an empty element reaches it as a start tag
    followed by an end tag; comments, declarations and processing
    instructions go to handlers that do nothing. *)
Inductive html_event : Type :=
| StartTag (tag : pystr) (attrs : list (pystr * option pystr))
| EndTag (tag : pystr)
| Data (data : pystr)
| Unhandled.

(** The parser object. [section] refers to an element of [data]: the
    section object is shared between the list and the attribute, so the
    reference is the position in [data] and every write through
    [self.section] is a write into the list. *)
Record ContentParser := mkContentParser {
  data : list ContentSection;
  section : option nat;
  is_header_tag : bool;
  _stripped_html : list pystr
}.

Definition ContentParser_init : ContentParser :=
  {| data := []; section := None; is_header_tag := false; _stripped_html := [] |}.

Definition set_id (v : option pystr) (s : ContentSection) : ContentSection :=
  {| cs_text := cs_text s; cs_id := v; cs_title := cs_title s |}.

Definition set_title (v : option pystr) (s : ContentSection) : ContentSection :=
  {| cs_text := cs_text s; cs_id := cs_id s; cs_title := v |}.

Definition text_append (x : pystr) (s : ContentSection) : ContentSection :=
  {| cs_text := cs_text s ++ [x]; cs_id := cs_id s; cs_title := cs_title s |}.

(** A write through [self.section]. *)
Definition with_section (f : ContentSection -> ContentSection) (self : ContentParser)
  : ContentParser :=
  match section self with
  | None => self
  | Some i =>
      {| data := alter f i (data self); section := section self;
         is_header_tag := is_header_tag self; _stripped_html := _stripped_html self |}
  end.

Definition handle_starttag (self : ContentParser) (tag : pystr)
    (attrs : list (pystr * option pystr)) : ContentParser :=
  if negb (is_header tag) then self
  else
    let self := {| data := data self ++ [ContentSection_new];
                   section := Some (length (data self));
                   is_header_tag := true;
                   _stripped_html := _stripped_html self |} in
    fold_left (fun self attr =>
                 if bool_decide (fst attr = py "id")
                 then with_section (set_id (snd attr)) self
                 else self)
              attrs self.

Definition handle_endtag (self : ContentParser) (tag : pystr) : ContentParser :=
  if negb (is_header tag) then self
  else {| data := data self; section := section self;
          is_header_tag := false; _stripped_html := _stripped_html self |}.

Definition handle_data (self : ContentParser) (d : pystr) : ContentParser :=
  let self := {| data := data self; section := section self;
                 is_header_tag := is_header_tag self;
                 _stripped_html := _stripped_html self ++ [d] |} in
  match section self with
  | None => self
  | Some _ =>
      if is_header_tag self
      then with_section (set_title (Some d)) self
      else with_section (text_append (rstrip_newline d)) self
  end.

Definition handle (self : ContentParser) (ev : html_event) : ContentParser :=
  match ev with
  | StartTag tag attrs => handle_starttag self tag attrs
  | EndTag tag => handle_endtag self tag
  | Data d => handle_data self d
  | Unhandled => self
  end.

(** [parser.feed(...); parser.close()] on the events of a document. *)
Definition feed (self : ContentParser) (events : list html_event) : ContentParser :=
  fold_left handle events self.

(** The property [stripped_html]. *)
Definition stripped_html (self : ContentParser) : pystr :=
  join [NEWLINE] (_stripped_html self).

(** The text-data events of a document, in order. *)
Definition data_events (events : list html_event) : list pystr :=
  flat_map (fun ev => match ev with Data d => [d] | _ => [] end) events.

Definition is_heading_start (ev : html_event) : bool :=
  match ev with
  | StartTag tag _ => is_header tag
  | _ => false
  end.

(** ** The serializer: [json.dumps(..., sort_keys=True, separators=(',', ':'))] *)

Definition str_of_Z (z : Z) : pystr := py (NilEmpty.string_of_int (Z.to_int z)).

Definition hex_digit (d : N) : N := (if d <? 10 then 48 + d else 87 + d)%N.

(** ['{0:04x}'.format(n)] for [n < 0x10000] *)
Definition hex4 (n : N) : pystr :=
  [hex_digit (N.shiftr n 12 mod 16); hex_digit (N.shiftr n 8 mod 16);
   hex_digit (N.shiftr n 4 mod 16); hex_digit (n mod 16)]%N.

(** The replacement of one character by [py_encode_basestring_ascii]. *)
Definition escape_char (c : N) : pystr :=
  (if c =? 34 then [92; 34]
   else if c =? 92 then py "\\"
   else if c =? 10 then py "\n"
   else if c =? 13 then py "\r"
   else if c =? 9 then py "\t"
   else if c =? 8 then py "\b"
   else if c =? 12 then py "\f"
   else if (32 <=? c) && (c <=? 126) then [c]
   else if c <? 65536 then py "\u" ++ hex4 c
   else
     let n := c - 65536 in
     let s1 := N.lor 55296 (N.land (N.shiftr n 10) 1023) in
     let s2 := N.lor 56320 (N.land n 1023) in
     py "\u" ++ hex4 s1 ++ py "\u" ++ hex4 s2)%N.

Definition encode_str (s : pystr) : pystr :=
  [34%N] ++ flat_map escape_char s ++ [34%N].

(** The order of [str]: by code points, a prefix first. *)
Fixpoint str_leb (a b : pystr) : bool :=
  match a, b with
  | [], _ => true
  | _ :: _, [] => false
  | x :: a', y :: b' =>
      if (x <? y)%N then true else if (y <? x)%N then false else str_leb a' b'
  end.

Fixpoint insert_item {A} (kv : pystr * A) (l : list (pystr * A)) : list (pystr * A) :=
  match l with
  | [] => [kv]
  | h :: t => if str_leb (fst kv) (fst h) then kv :: l else h :: insert_item kv t
  end.

(** [sorted(dct.items())]: the keys of a dict are distinct. *)
Definition sort_items {A} (l : list (pystr * A)) : list (pystr * A) :=
  fold_right insert_item [] l.

(** The text of a value; an object that is not of a JSON type is written
    as the string [str(obj)], which is what [default=str] makes of it. *)
Fixpoint encode (v : pyval) : pystr :=
  match v with
  | PNone => py "null"
  | PBool true => py "true"
  | PBool false => py "false"
  | PInt z => str_of_Z z
  | PFloat r => r
  | PStr s => encode_str s
  | PObj r => encode_str r
  | PList items => py "[" ++ join (py ",") (map encode items) ++ py "]"
  | PDict items =>
      py "{" ++
      join (py ",")
        (map (fun kv => encode_str (fst kv) ++ py ":" ++ snd kv)
           (sort_items (map (fun kv => match kv with (k, x) => (k, encode x) end) items)))
      ++ py "}"
  end.

(** Whether the encoder reaches no object outside the JSON types. *)
Fixpoint serializable (v : pyval) : bool :=
  match v with
  | PObj _ => false
  | PList items => forallb serializable items
  | PDict items => forallb (fun kv => match kv with (_, x) => serializable x end) items
  | _ => true
  end.

(** [json.dumps(v, sort_keys=True, separators=(',', ':'))], with
    [default=str] or without it. *)
Definition json_dumps (default_str : bool) (v : pyval) : exn + pystr :=
  if default_str || serializable v then inr (encode v)
  else inl (TypeError (py "Object is not JSON serializable")).

(** ** Pages and the services of the interpreter *)

(** What the class reads of a [Page]: [ancestors] holds the titles of
    [page.ancestors], the parent first. *)
Record Page := mkPage {
  page_title : option pystr;
  page_ancestors : list pystr;
  page_content : option pystr;
  page_url : pystr;
  page_toc : TableOfContents
}.

(** The libraries and the operating system, as the class sees them:
    - [html_events]: the handler calls [HTMLParser] makes for a document;
    - [node_prebuild]: [subprocess.Popen] of node on the script and
      [communicate] with the payload: an exception, or the output and
      error streams;
    - [json_loads]: [json.loads], an exception or the value;
    - [haslunrpy] and [lunr]: whether lunr.py is installed, and the
      serialized index it builds from the entries and the languages. *)
Record Runtime := mkRuntime {
  html_events : pystr -> list html_event;
  node_prebuild : pystr -> exn + (pystr * pystr);
  json_loads : pystr -> exn + pyval;
  haslunrpy : bool;
  lunr : list Entry -> pyval -> exn + pyval
}.

(** ** [SearchIndex]: entries of a page *)

(** [a or b] for an optional string [a] and a string [b]. *)
Definition str_or (a : option pystr) (b : pystr) : pystr :=
  match a with
  | None | Some [] => b
  | Some a => a
  end.

Definition create_entry_for_section (self : SearchIndex) (section : ContentSection)
    (toc : TableOfContents) (abs_url : pystr) (title : option pystr) : SearchIndex :=
  let toc_item := _find_toc_by_id toc (cs_id section) in
  let text := if bool_decide (indexing (config self) = py "full")
              then join (py " ") (cs_text section) else [] in
  match toc_item with
  | Some toc_item =>
      _add_entry self (Some (str_or title (al_title toc_item))) text (abs_url ++ al_url toc_item)
  | None => self
  end.

(** [enumerate(l)] *)
Definition enumerate {A} (l : list A) : list (nat * A) := combine (seq 0 (length l)) l.

(** [' / '.join(title_parts)] of [add_entry_from_context]. *)
Definition compose_title (c : Config) (page : Page) : pystr :=
  let title_parts := match page_title page with
                     | None | Some [] => []
                     | Some t => [t]
                     end in
  let title_parts :=
    if full_path_in_title c
    then fold_left (fun parts ancestor => ancestor :: parts) (page_ancestors page) title_parts
    else title_parts in
  join (py " / ") title_parts.

(** The [section_title] the loop of [add_entry_from_context] computes for
    the section at position [i]. *)
Definition section_title_at (c : Config) (page_title : pystr) (i : nat) : option pystr :=
  if full_path_in_title c && (i =? 0)%nat then Some page_title else None.

Definition add_entry_from_context (rt : Runtime) (self : SearchIndex) (page : Page)
  : exn + SearchIndex :=
  let page_title := compose_title (config self) page in
  match page_content page with
  | None => inl AssertionError
  | Some content =>
      let parser := feed ContentParser_init (html_events rt content) in
      let url := page_url page in
      let text := if bool_decide (indexing (config self) = py "full")
                  then rstrip_newline (stripped_html parser) else [] in
      let self := _add_entry self (Some page_title) text url in
      if bool_decide (indexing (config self) ∈ [py "full"; py "sections"])
      then
        inr (fold_left
               (fun self i_section =>
                  let section_title :=
                    section_title_at (config self) page_title (fst i_section) in
                  create_entry_for_section self (snd i_section) (page_toc page) url section_title)
               (enumerate (data parser)) self)
      else inr self
  end.

(** ** [SearchIndex.generate_search_index] *)

Inductive log_level : Type := DEBUG | WARNING.

(** What a call leaves: the object, the records logged, and the value
    returned or the exception raised. *)
Record Outcome := mkOutcome {
  out_self : SearchIndex;
  out_log : list (log_level * pystr);
  out_result : exn + pystr
}.

Definition opt_str (o : option pystr) : pyval :=
  match o with None => PNone | Some s => PStr s end.

(** The dict [_add_entry] appends. *)
Definition entry_dict (e : Entry) : pyval :=
  PDict [(py "title", opt_str (e_title e)); (py "text", PStr (e_text e));
         (py "location", PStr (e_location e))].

Definition prebuild_value (p : prebuild_choice) : pyval :=
  match p with PrebuildBool b => PBool b | PrebuildStr s => PStr s end.

Definition config_dict (c : Config) : pyval :=
  PDict ([(py "indexing", PStr (indexing c));
          (py "full_path_in_title", PBool (full_path_in_title c));
          (py "prebuild_index", prebuild_value (prebuild_index c));
          (py "lang", lang c)] ++ others c).

(** [{'docs': self._entries, 'config': self.config}] *)
Definition page_dicts (self : SearchIndex) : list (pystr * pyval) :=
  [(py "docs", PList (map entry_dict (_entries self)));
   (py "config", config_dict (config self))].

(** [self.config['prebuild_index'] in (True, 'node')] *)
Definition selects_node (p : prebuild_choice) : bool :=
  match p with
  | PrebuildBool b => b
  | PrebuildStr s => bool_decide (s = py "node")
  end.

(** [self.config['prebuild_index'] == 'python'] *)
Definition selects_python (p : prebuild_choice) : bool :=
  match p with
  | PrebuildBool _ => false
  | PrebuildStr s => bool_decide (s = py "python")
  end.

Definition msg_failed : pystr := py "Failed to pre-build search index. Error: ".

Definition msg_no_lunr : pystr :=
  py "Failed to pre-build search index. The 'python' method was specified; however, the 'lunr.py' library does not appear to be installed. Try installing it with 'pip install lunr'. If you are using any language other than English you will also need to install 'lunr[languages]'.".

Definition msg_created : pystr := py "Pre-built search index created successfully.".

(** [except (OSError, ValueError) as e] around the pre-build by node: the
    exception is logged and [data] is kept, or the exception goes on. *)
Definition except_prebuild (self : SearchIndex) (data : pystr) (e : exn) : Outcome :=
  match e with
  | OSError _ | ValueError _ =>
      {| out_self := self; out_log := [(WARNING, msg_failed ++ exn_str e)];
         out_result := inr data |}
  | _ => {| out_self := self; out_log := []; out_result := inl e |}
  end.

Definition generate_search_index (rt : Runtime) (self : SearchIndex) : Outcome :=
  let page_dicts := page_dicts self in
  match json_dumps true (PDict page_dicts) with
  | inl e => {| out_self := self; out_log := []; out_result := inl e |}
  | inr data =>
      if selects_node (prebuild_index (config self)) then
        match node_prebuild rt data with
        | inl e => except_prebuild self data e
        | inr (idx, err) =>
            match err with
            | [] =>
                match json_loads rt idx with
                | inl e => except_prebuild self data e
                | inr index =>
                    let page_dicts := page_dicts ++ [(py "index", index)] in
                    match json_dumps false (PDict page_dicts) with
                    | inl e => except_prebuild self data e
                    | inr data =>
                        {| out_self := self; out_log := [(DEBUG, msg_created)];
                           out_result := inr data |}
                    end
                end
            | _ :: _ =>
                {| out_self := self; out_log := [(WARNING, msg_failed ++ err)];
                   out_result := inr data |}
            end
        end
      else if selects_python (prebuild_index (config self)) then
        if haslunrpy rt then
          match lunr rt (_entries self) (lang (config self)) with
          | inl e => {| out_self := self; out_log := []; out_result := inl e |}
          | inr lunr_idx =>
              let page_dicts := page_dicts ++ [(py "index", lunr_idx)] in
              match json_dumps false (PDict page_dicts) with
              | inl e => {| out_self := self; out_log := []; out_result := inl e |}
              | inr data => {| out_self := self; out_log := []; out_result := inr data |}
              end
          end
        else
          {| out_self := self; out_log := [(WARNING, msg_no_lunr)]; out_result := inr data |}
      else {| out_self := self; out_log := []; out_result := inr data |}
  end.

(** ** Notions of the properties *)

(** The invariant of the [text] of an entry: no tab, newline, vertical
    tab, form feed, carriage return or non-breaking space; no whitespace at
    either end; no two spaces in a row. *)
Definition text_normalized (s : pystr) : Prop :=
  (forall c, c ∈ s -> c ∉ [9; 10; 11; 12; 13; NBSP]%N)
  /\ (forall c, head s = Some c -> py_isspace c = false)
  /\ (forall c, last s = Some c -> py_isspace c = false)
  /\ (forall i, s !! i = Some SPACE -> s !! S i <> Some SPACE).

(** The entries one call of [create_entry_for_section] appends, for the
    section at position [i] of a page: the call on an empty store. *)
Definition appended_by_section (c : Config) (toc : TableOfContents) (url page_title : pystr)
    (i : nat) (section : ContentSection) : list Entry :=
  _entries (create_entry_for_section {| _entries := []; config := c |} section toc url
              (section_title_at c page_title i)).

(** The parser after the document of a page. *)
Definition parsed (rt : Runtime) (content : pystr) : ContentParser :=
  feed ContentParser_init (html_events rt content).

(** The title of the entry of the section at position [i] whose id is
    that of [toc_item], as the specification words it, and as the code
    computes it: an empty composed title gives way to the title of the
    node. *)
Definition title_as_stated (c : Config) (page_title : pystr) (i : nat) (toc_item : AnchorLink)
  : pystr :=
  if full_path_in_title c && (i =? 0)%nat then page_title else al_title toc_item.

Definition title_nonempty_rule (c : Config) (page_title : pystr) (i : nat)
    (toc_item : AnchorLink) : pystr :=
  if full_path_in_title c && (i =? 0)%nat && negb (bool_decide (page_title = []))
  then page_title else al_title toc_item.

(** A page appends its own entry and, for every section in order, a list
    of entries; the entry of a section with a node in the table of
    contents is single and has the title [rule] gives. *)
Definition section_titles_follow
    (rule : Config -> pystr -> nat -> AnchorLink -> pystr)
    (rt : Runtime) (self : SearchIndex) (page : Page) (content : pystr) : Prop :=
  exists self' page_entry per_section,
    add_entry_from_context rt self page = inr self'
    /\ _entries self' = _entries self ++ page_entry :: concat per_section
    /\ length per_section = length (data (parsed rt content))
    /\ forall i section toc_item,
         data (parsed rt content) !! i = Some section ->
         _find_toc_by_id (page_toc page) (cs_id section) = Some toc_item ->
         exists e, per_section !! i = Some [e]
                   /\ e_title e = Some (rule (config self) (compose_title (config self) page)
                                           i toc_item).

(** A start or end tag of a heading: the events that set or clear
    [is_header_tag]. *)
Definition is_heading_tag_event (ev : html_event) : bool :=
  match ev with
  | StartTag tag _ | EndTag tag => is_header tag
  | _ => false
  end.

(** [data] of [generate_search_index] before any pre-build: the
    serialization of the store and the configuration alone. *)
Definition uncompiled_payload (self : SearchIndex) : pystr :=
  encode (PDict (page_dicts self)).

(** The pre-build by node fails: the process cannot be started or talked
    to ([OSError]), its output cannot be decoded ([ValueError]), it writes
    to its error stream, or its output is not JSON. *)
Definition node_fails (rt : Runtime) (payload : pystr) : Prop :=
  match node_prebuild rt payload with
  | inl (OSError _) | inl (ValueError _) => True
  | inl _ => False
  | inr (idx, err) =>
      err <> [] \/ exists msg, json_loads rt idx = inl (ValueError msg)
  end.

(** Pre-build is disabled: [prebuild_index] selects neither strategy. *)
Definition prebuild_disabled (c : Config) : Prop :=
  selects_node (prebuild_index c) = false /\ selects_python (prebuild_index c) = false.

(** Induction on a table of contents: a node, from its children. *)
Section AnchorLink_induction.
Variable P : AnchorLink -> Prop.
Hypothesis Hnode : forall id_ title url children,
    Forall P children -> P (mkAnchorLink id_ title url children).

Fixpoint AnchorLink_nested_ind (toc_item : AnchorLink) : P toc_item :=
  match toc_item with
  | mkAnchorLink id_ title url children =>
      Hnode id_ title url children
        ((fix all (l : list AnchorLink) : Forall P l :=
            match l with
            | [] => @List.Forall_nil _ P
            | x :: rest => @List.Forall_cons _ P x rest (AnchorLink_nested_ind x) (all rest)
            end) children)
  end.
End AnchorLink_induction.

(** ** Sample data, used to run the definitions *)

Definition sample_events : list html_event :=
  [Data (py "Lead"); StartTag (py "h2") [(py "id", Some (py "a"))]; Data (py "Intro");
   EndTag (py "h2"); StartTag (py "p") []; Data (py "Hello world"); EndTag (py "p");
   StartTag (py "h3") [(py "id", Some (py "zz"))]; Data (py "Lost"); EndTag (py "h3")].

(** A runtime whose node process writes to its error stream and that has
    no lunr.py. *)
Definition sample_runtime : Runtime :=
  {| html_events := fun _ => sample_events;
     node_prebuild := fun _ => inr ([], py "node: not found");
     json_loads := fun _ => inl (ValueError (py "Expecting value"));
     haslunrpy := false;
     lunr := fun _ _ => inl (OtherError []) |}.

Definition sample_config (indexing_ : pystr) (full_path : bool) (prebuild : prebuild_choice)
  : Config :=
  {| indexing := indexing_; full_path_in_title := full_path; prebuild_index := prebuild;
     lang := PList [PStr (py "en")];
     others := [(py "separator", PStr (py "[\s\-]+")); (py "min_search_length", PInt 3)] |}.

Definition sample_toc : TableOfContents :=
  [mkAnchorLink (py "top") (py "Top") (py "#top")
     [mkAnchorLink (py "a") (py "Intro") (py "#a") [];
      mkAnchorLink (py "b") (py "Usage") (py "#b") []];
   mkAnchorLink (py "a") (py "Again") (py "#a_1") []].

(** A page without a title and without ancestors, with one heading. *)
Definition untitled_events : list html_event :=
  [StartTag (py "h2") [(py "id", Some (py "a"))]; Data (py "Intro"); EndTag (py "h2");
   Data (py "Hello")].

Definition untitled_runtime : Runtime :=
  {| html_events := fun _ => untitled_events;
     node_prebuild := fun _ => inl (OSError (py "No such file or directory: 'node'"));
     json_loads := fun _ => inl (ValueError (py "Expecting value"));
     haslunrpy := false;
     lunr := fun _ _ => inl (OtherError []) |}.

Definition untitled_page : Page :=
  {| page_title := None; page_ancestors := []; page_content := Some (py "<h2>");
     page_url := py "/x/";
     page_toc := [mkAnchorLink (py "a") (py "Intro") (py "#a") []] |}.

Definition sample_page : Page :=
  {| page_title := Some (py "Page"); page_ancestors := [py "Parent"; py "Root"];
     page_content := Some (py "<html>"); page_url := py "/x/"; page_toc := sample_toc |}.

(** A runtime whose node process answers an empty index, and whose
    lunr.py is installed but fails. *)
Definition working_runtime : Runtime :=
  {| html_events := fun _ => sample_events;
     node_prebuild := fun _ => inr (py "{}", []);
     json_loads := fun _ => inr (PDict []);
     haslunrpy := true;
     lunr := fun _ _ => inl (OSError (py "No space left on device")) |}.

(** A runtime whose node process is interrupted. *)
Definition interrupted_runtime : Runtime :=
  {| html_events := fun _ => sample_events;
     node_prebuild := fun _ => inl (OtherError (py "KeyboardInterrupt"));
     json_loads := fun _ => inr (PDict []);
     haslunrpy := false;
     lunr := fun _ _ => inl (OtherError []) |}.

(** A configuration with a value that is not of a JSON type. *)
Definition object_config (prebuild : prebuild_choice) : Config :=
  {| indexing := py "full"; full_path_in_title := false; prebuild_index := prebuild;
     lang := PList [PStr (py "en")];
     others := [(py "docs_dir", PObj (py "/site/docs"))] |}.

(** A runtime whose documents have no heading. *)
Definition plain_runtime : Runtime :=
  {| html_events := fun _ => [StartTag (py "p") []; Data (py "Hello"); EndTag (py "p");
                              Data (py "world" ++ [NEWLINE])];
     node_prebuild := fun _ => inr ([], py "node: not found");
     json_loads := fun _ => inl (ValueError (py "Expecting value"));
     haslunrpy := false;
     lunr := fun _ _ => inl (OtherError []) |}.

(** ** Further notions *)


(** What the loop over [attrs] of [handle_starttag] leaves in [id]: the
    value of the last [id] attribute, or the value before the loop. *)
Definition heading_id_from (start : option pystr) (attrs : list (pystr * option pystr))
  : option pystr :=
  fold_left (fun acc attr => if bool_decide (fst attr = py "id") then snd attr else acc)
    attrs start.

Definition heading_id (attrs : list (pystr * option pystr)) : option pystr :=
  heading_id_from None attrs.

(** The ids of the heading start tags of a document, in order. *)
Definition heading_ids (events : list html_event) : list (option pystr) :=
  flat_map (fun ev => match ev with
                      | StartTag tag attrs => if is_header tag then [heading_id attrs] else []
                      | _ => []
                      end) events.

(** [self.section] is the last element of [self.data], or [None] while
    [self.data] is empty. *)
Definition current_is_last (self : ContentParser) : Prop :=
  match section self with
  | None => data self = []
  | Some i => S i = length (data self)
  end.

(** Two parsers that differ at most in the page-level accumulator. *)
Definition same_sections (a b : ContentParser) : Prop :=
  data a = data b /\ section a = section b /\ is_header_tag a = is_header_tag b.

(** A character that is not whitespace for [str.strip]. *)
Definition visible (c : N) : Prop := py_isspace c = false.

(** * Properties *)

(** ** Strings *)

Lemma re_space_class_isspace c : re_space_class c = true -> py_isspace c = true.
Proof.
  unfold re_space_class, py_isspace; intros H.
  repeat (apply orb_prop in H; destruct H as [H|H]);
    apply N.eqb_eq in H; subst c; reflexivity.
Qed.

Lemma isspace_false_class c : py_isspace c = false -> re_space_class c = false.
Proof.
  intros H; destruct (re_space_class c) eqn:E; [|done].
  apply re_space_class_isspace in E; congruence.
Qed.

Lemma lstrip_head p s c : head (lstrip p s) = Some c -> p c = false.
Proof.
  induction s as [|x s IH]; simpl; [done|].
  destruct (p x) eqn:E; [done|]. simpl; intros [= <-]; done.
Qed.

Lemma lstrip_app_keep p l c k :
  p c = false -> lstrip p (l ++ c :: k) = lstrip p l ++ c :: k.
Proof.
  intros Hc; induction l as [|x l IH]; simpl.
  - by rewrite Hc.
  - destruct (p x); done.
Qed.

Lemma rstrip_cons_keep p c r : p c = false -> rstrip p (c :: r) = c :: rstrip p r.
Proof.
  intros Hc; unfold rstrip.
  rewrite reverse_cons, lstrip_app_keep by done.
  by rewrite reverse_app.
Qed.

Lemma rstrip_last p s c : last (rstrip p s) = Some c -> p c = false.
Proof.
  unfold rstrip. rewrite last_reverse. apply lstrip_head.
Qed.

Lemma lstrip_incl p s c : c ∈ lstrip p s -> c ∈ s.
Proof.
  induction s as [|x s IH]; simpl; [done|].
  destruct (p x); [|done]. intros H; right; auto.
Qed.

Lemma rstrip_incl p s c : c ∈ rstrip p s -> c ∈ s.
Proof.
  unfold rstrip; rewrite elem_of_reverse.
  intros H%lstrip_incl. by apply elem_of_reverse.
Qed.

Lemma strip_incl s c : c ∈ strip s -> c ∈ s.
Proof. unfold strip; intros H%rstrip_incl%lstrip_incl; done. Qed.

Lemma strip_head s c : head (strip s) = Some c -> py_isspace c = false.
Proof.
  unfold strip. destruct (lstrip py_isspace s) as [|x u] eqn:E.
  - done.
  - assert (Hx : py_isspace x = false) by (apply (lstrip_head _ s); by rewrite E).
    rewrite rstrip_cons_keep by done. simpl; intros [= <-]; done.
Qed.

Lemma strip_last s c : last (strip s) = Some c -> py_isspace c = false.
Proof. apply rstrip_last. Qed.

Lemma replace_char_absent old new s : old <> new -> old ∉ replace_char old new s.
Proof.
  intros Hne; unfold replace_char; rewrite list_elem_of_fmap.
  intros (c & Hc & _). destruct (N.eqb_spec c old); congruence.
Qed.

Lemma re_sub_from_elem b s c :
  c ∈ re_sub_from b s -> c = SPACE \/ (c ∈ s /\ re_space_class c = false).
Proof.
  revert b; induction s as [|x s IH]; intros b; simpl; [by intros ?%elem_of_nil|].
  destruct (re_space_class x) eqn:Ex.
  - destruct b.
    + intros [?|[? ?]]%IH; [by left|right; split; [by right|done]].
    + intros [->|[?|[? ?]]%IH]%elem_of_cons; [by left|by left|right; split; [by right|done]].
  - intros [->|[?|[? ?]]%IH]%elem_of_cons;
      [right; split; [by left|done]|by left|right; split; [by right|done]].
Qed.

Lemma re_sub_from_head_run s c : head (re_sub_from true s) = Some c -> re_space_class c = false.
Proof.
  induction s as [|x s IH]; simpl; [done|].
  destruct (re_space_class x) eqn:Ex; [done|]. simpl; intros [= <-]; done.
Qed.

Lemma re_sub_from_single b s i :
  re_sub_from b s !! i = Some SPACE -> re_sub_from b s !! S i <> Some SPACE.
Proof.
  revert b i; induction s as [|x s IH]; intros b i; simpl; [done|].
  destruct (re_space_class x) eqn:Ex.
  - destruct b; [apply IH|].
    destruct i as [|i]; simpl; [|apply IH].
    intros _ H. rewrite <- head_lookup in H. by apply re_sub_from_head_run in H.
  - destruct i as [|i]; simpl; [|apply IH].
    intros [= ->]. done.
Qed.

Lemma re_sub_from_last b s c :
  last s = Some c -> re_space_class c = false -> last (re_sub_from b s) = Some c.
Proof.
  intros Hl Hc; revert b Hl; induction s as [|x s IH]; intros b; [done|].
  destruct s as [|y s].
  - simpl; intros [= ->]. by rewrite Hc.
  - intros Hl. change (last (x :: y :: s)) with (last (y :: s)) in Hl.
    assert (Hne : forall b', exists z t, re_sub_from b' (y :: s) = z :: t).
    { intros b'. specialize (IH b' Hl).
      destruct (re_sub_from b' (y :: s)) as [|z t]; [done|eauto]. }
    change (re_sub_from b (x :: y :: s)) with
      (if re_space_class x
       then (if b then re_sub_from true (y :: s) else SPACE :: re_sub_from true (y :: s))
       else x :: re_sub_from false (y :: s)).
    destruct (re_space_class x); [destruct b|].
    + by apply IH.
    + destruct (Hne true) as (z & t & E). rewrite E, last_cons_cons, <- E. by apply IH.
    + destruct (Hne false) as (z & t & E). rewrite E, last_cons_cons, <- E. by apply IH.
Qed.

Lemma normalize_text_normalized text : text_normalized (normalize_text text).
Proof.
  unfold normalize_text, re_sub_spaces.
  set (t := replace_char NBSP SPACE text).
  repeat split.
  - intros c Hc Hbad.
    apply re_sub_from_elem in Hc as [->|[Hin Hcls]].
    + rewrite !elem_of_cons, elem_of_nil in Hbad. unfold SPACE, NBSP in Hbad.
      intuition discriminate.
    + apply strip_incl in Hin.
      rewrite !elem_of_cons, elem_of_nil in Hbad.
      destruct Hbad as [->|[->|[->|[->|[->|[->|[]]]]]]]; try discriminate Hcls.
      by apply (replace_char_absent NBSP SPACE text) in Hin.
  - intros c. destruct (strip t) as [|x u] eqn:E; [done|].
    assert (Hx : py_isspace x = false) by (apply (strip_head t); by rewrite E).
    simpl. rewrite (isspace_false_class _ Hx). simpl; intros [= <-]; done.
  - intros c Hl. destruct (last (strip t)) as [z|] eqn:E.
    + assert (Hz : py_isspace z = false) by by apply (strip_last t).
      rewrite (re_sub_from_last false _ z E (isspace_false_class _ Hz)) in Hl.
      by injection Hl as <-.
    + apply last_None in E. by rewrite E in Hl.
  - apply re_sub_from_single.
Qed.

Lemma normalize_text_empty : normalize_text [] = [].
Proof. reflexivity. Qed.

(** ** The entry store *)

Lemma add_entry_entries self title text loc :
  _entries (_add_entry self title text loc)
  = _entries self ++ [ {| e_title := title; e_text := normalize_text text; e_location := loc |} ].
Proof. reflexivity. Qed.

Lemma add_entry_config self title text loc :
  config (_add_entry self title text loc) = config self.
Proof. reflexivity. Qed.

Lemma create_entry_for_section_config self section toc url title :
  config (create_entry_for_section self section toc url title) = config self.
Proof.
  unfold create_entry_for_section. by destruct (_find_toc_by_id _ _).
Qed.

(** A call of [create_entry_for_section] appends to the store what it
    appends to an empty one. *)
Lemma create_entry_for_section_frame self section toc url title :
  _entries (create_entry_for_section self section toc url title)
  = _entries self
    ++ _entries (create_entry_for_section {| _entries := []; config := config self |}
                   section toc url title).
Proof.
  unfold create_entry_for_section. simpl.
  destruct (_find_toc_by_id _ _); simpl; [done|by rewrite app_nil_r].
Qed.

Lemma sections_loop_entries c toc url page_title (l : list ContentSection) :
  forall k self, config self = c ->
    let self' :=
      fold_left
        (fun self i_section =>
           create_entry_for_section self (snd i_section) toc url
             (section_title_at (config self) page_title (fst i_section)))
        (combine (seq k (length l)) l) self in
    config self' = c
    /\ _entries self'
       = _entries self
         ++ concat (imap (fun i => appended_by_section c toc url page_title (k + i)) l).
Proof.
  induction l as [|s l IH]; intros k self Hc; simpl.
  - by rewrite app_nil_r.
  - set (self1 := create_entry_for_section self s toc url _).
    assert (Hc1 : config self1 = c)
      by (unfold self1; by rewrite create_entry_for_section_config).
    destruct (IH (S k) self1 Hc1) as [Hcfg Hent]. split; [exact Hcfg|].
    etrans; [exact Hent|].
    unfold self1 at 1. rewrite create_entry_for_section_frame, Hc, <- app_assoc.
    f_equal. unfold appended_by_section at 2. rewrite Nat.add_0_r. f_equal.
    f_equal. apply imap_ext. intros i x _. simpl. f_equal. lia.
Qed.

(** The entries a page appends: the entry of the page, then those of its
    sections in order. *)
Lemma add_entry_from_context_entries rt self page content :
  page_content page = Some content ->
  let c := config self in
  let page_title := compose_title c page in
  let page_entry :=
    {| e_title := Some page_title;
       e_text := normalize_text
                   (if bool_decide (indexing c = py "full")
                    then rstrip_newline (stripped_html (parsed rt content)) else []);
       e_location := page_url page |} in
  exists self',
    add_entry_from_context rt self page = inr self'
    /\ config self' = c
    /\ _entries self'
       = _entries self
         ++ page_entry
            :: (if bool_decide (indexing c ∈ [py "full"; py "sections"])
                then concat (imap (appended_by_section c (page_toc page) (page_url page)
                                     page_title)
                               (data (parsed rt content)))
                else []).
Proof.
  intros Hcontent c page_title page_entry.
  unfold add_entry_from_context. rewrite Hcontent.
  rewrite add_entry_config. fold c. fold (parsed rt content). fold page_title.
  case_bool_decide as Hidx.
  - eexists; split; [reflexivity|].
    unfold enumerate.
    destruct (sections_loop_entries c (page_toc page) (page_url page) page_title
                (data (parsed rt content)) 0
                (_add_entry self (Some page_title)
                   (if bool_decide (indexing c = py "full")
                    then rstrip_newline (stripped_html (parsed rt content)) else [])
                   (page_url page)) eq_refl) as [Hcfg Hent].
    split; [exact Hcfg|].
    rewrite Hent, add_entry_entries, <- app_assoc. reflexivity.
  - eexists; split; [reflexivity|]. split; [done|].
    by rewrite add_entry_entries.
Qed.

(** ** The table of contents *)

Lemma find_toc_item_unfold id_ toc_item :
  _find_toc_item id_ toc_item
  = if id_matches toc_item id_ then Some toc_item
    else _find_toc_by_id (al_children toc_item) id_.
Proof.
  destruct toc_item as [i t u children]; simpl.
  destruct (id_matches _ _); [done|].
  induction children as [|x l IH]; simpl; [done|].
  by rewrite IH.
Qed.

(** The loop of the source: an item, its children, then the rest. *)
Lemma find_toc_by_id_cons toc_item rest id_ :
  _find_toc_by_id (toc_item :: rest) id_
  = if id_matches toc_item id_ then Some toc_item
    else match _find_toc_by_id (al_children toc_item) id_ with
         | Some toc_item_r => Some toc_item_r
         | None => _find_toc_by_id rest id_
         end.
Proof.
  simpl. rewrite find_toc_item_unfold. by destruct (id_matches _ _).
Qed.

Lemma find_app_first {A} (f : A -> bool) (l1 l2 : list A) :
  List.find f (l1 ++ l2)
  = match List.find f l1 with Some x => Some x | None => List.find f l2 end.
Proof.
  induction l1 as [|x l1 IH]; simpl; [done|]. by destruct (f x).
Qed.

Lemma find_toc_by_id_children id_ (l : list AnchorLink) :
  Forall (fun t => _find_toc_item id_ t
                   = List.find (fun n => id_matches n id_) (preorder_item t)) l ->
  _find_toc_by_id l id_ = List.find (fun n => id_matches n id_) (preorder l).
Proof.
  unfold preorder. induction 1 as [|x l Hx _ IH]; simpl; [done|].
  rewrite find_app_first, <- Hx, IH. done.
Qed.

Lemma find_toc_item_preorder id_ toc_item :
  _find_toc_item id_ toc_item = List.find (fun n => id_matches n id_) (preorder_item toc_item).
Proof.
  induction toc_item as [i t u children IH] using AnchorLink_nested_ind.
  rewrite find_toc_item_unfold.
  change (preorder_item (mkAnchorLink i t u children))
    with (mkAnchorLink i t u children :: preorder children).
  simpl List.find. destruct (id_matches _ _); [done|].
  simpl al_children. by apply find_toc_by_id_children.
Qed.

Lemma find_toc_by_id_preorder toc id_ :
  _find_toc_by_id toc id_ = List.find (fun n => id_matches n id_) (preorder toc).
Proof.
  apply find_toc_by_id_children, Forall_forall. intros t _. apply find_toc_item_preorder.
Qed.

Lemma find_first_split {A} (f : A -> bool) (l : list A) :
  match List.find f l with
  | Some x => exists before after,
      l = before ++ x :: after /\ f x = true /\ Forall (fun y => f y = false) before
  | None => Forall (fun y => f y = false) l
  end.
Proof.
  induction l as [|y l IH]; simpl; [done|].
  destruct (f y) eqn:E.
  - exists [], l. done.
  - destruct (List.find f l) as [x|].
    + destruct IH as (before & after & -> & Hx & Hb).
      exists (y :: before), after. split; [done|]. split; [done|]. by constructor.
    + by constructor.
Qed.

Lemma id_matches_true toc_item id_ : id_matches toc_item id_ = true <-> Some (al_id toc_item) = id_.
Proof. unfold id_matches. by rewrite bool_decide_eq_true. Qed.

Lemma id_matches_false toc_item id_ :
  id_matches toc_item id_ = false <-> Some (al_id toc_item) <> id_.
Proof. unfold id_matches. by rewrite bool_decide_eq_false. Qed.

(** ** The parser *)

Lemma with_section_stripped f self : _stripped_html (with_section f self) = _stripped_html self.
Proof. unfold with_section. by destruct (section self). Qed.

Lemma with_section_section f self : section (with_section f self) = section self.
Proof. unfold with_section. by destruct (section self) eqn:E. Qed.

Lemma with_section_flag f self : is_header_tag (with_section f self) = is_header_tag self.
Proof. unfold with_section. by destruct (section self). Qed.

Lemma with_section_data f self i :
  section self = Some i -> data (with_section f self) = alter f i (data self).
Proof. unfold with_section. by intros ->. Qed.

Lemma handle_starttag_stripped self tag attrs :
  _stripped_html (handle_starttag self tag attrs) = _stripped_html self.
Proof.
  unfold handle_starttag. destruct (negb (is_header tag)); [done|].
  set (self1 := mkContentParser _ _ _ _).
  change (_stripped_html self) with (_stripped_html self1). generalize self1.
  induction attrs as [|a attrs IH]; intros st; simpl; [done|].
  rewrite IH. case_bool_decide; [apply with_section_stripped|done].
Qed.

Lemma handle_stripped self ev :
  _stripped_html (handle self ev)
  = _stripped_html self ++ match ev with Data d => [d] | _ => [] end.
Proof.
  destruct ev as [tag attrs|tag|d|]; simpl.
  - by rewrite handle_starttag_stripped, app_nil_r.
  - unfold handle_endtag. destruct (negb _); by rewrite app_nil_r.
  - unfold handle_data; simpl. destruct (section self); [|done].
    destruct (is_header_tag self); by rewrite with_section_stripped.
  - by rewrite app_nil_r.
Qed.

Lemma feed_cons self ev events : feed self (ev :: events) = feed (handle self ev) events.
Proof. reflexivity. Qed.

(** The page-level accumulator holds every text fragment, in order. *)
Lemma feed_stripped events : forall self,
  _stripped_html (feed self events) = _stripped_html self ++ data_events events.
Proof.
  induction events as [|ev events IH]; intros self.
  - simpl. by rewrite app_nil_r.
  - rewrite feed_cons, IH, handle_stripped, <- app_assoc. done.
Qed.

Lemma feed_no_heading events : forall self,
  Forall (fun ev => is_heading_start ev = false) events ->
  data self = [] -> section self = None ->
  data (feed self events) = [] /\ section (feed self events) = None.
Proof.
  induction events as [|ev events IH]; intros self Hev Hd Hs; [done|].
  inversion Hev as [|? ? Hhd Htl]; subst. rewrite feed_cons.
  apply IH; [done| |]; destruct ev as [tag attrs|tag|d|]; simpl in *.
  - unfold handle_starttag. by rewrite Hhd.
  - unfold handle_endtag. by destruct (negb _).
  - unfold handle_data; simpl. by rewrite Hs.
  - done.
  - unfold handle_starttag. by rewrite Hhd.
  - unfold handle_endtag. by destruct (negb _).
  - unfold handle_data; simpl. by rewrite Hs.
  - done.
Qed.

Lemma handle_in_heading self i s ev :
  section self = Some i -> is_header_tag self = true -> data self !! i = Some s ->
  is_heading_tag_event ev = false ->
  section (handle self ev) = Some i
  /\ is_header_tag (handle self ev) = true
  /\ data (handle self ev) !! i
     = Some (match ev with Data d => set_title (Some d) s | _ => s end).
Proof.
  intros Hs Hf Hd Hev. destruct ev as [tag attrs|tag|d|]; simpl in *.
  - unfold handle_starttag. by rewrite Hev.
  - unfold handle_endtag. by rewrite Hev.
  - unfold handle_data, with_section; simpl. rewrite Hs, Hf; simpl.
    by rewrite list_lookup_alter_eq, Hd.
  - done.
Qed.

Lemma data_events_cons ev events :
  data_events (ev :: events) = match ev with Data d => [d] | _ => [] end ++ data_events events.
Proof. reflexivity. Qed.

Lemma feed_in_heading events : forall self i s,
  section self = Some i -> is_header_tag self = true -> data self !! i = Some s ->
  Forall (fun ev => is_heading_tag_event ev = false) events ->
  exists s',
    data (feed self events) !! i = Some s'
    /\ section (feed self events) = Some i
    /\ is_header_tag (feed self events) = true
    /\ cs_title s' = match last (data_events events) with
                     | Some d => Some d
                     | None => cs_title s
                     end
    /\ cs_text s' = cs_text s /\ cs_id s' = cs_id s.
Proof.
  induction events as [|ev events IH]; intros self i s Hs Hf Hd Hev.
  - exists s. by simpl.
  - inversion Hev as [|? ? Hhd Htl]; subst. rewrite feed_cons.
    destruct (handle_in_heading self i s ev Hs Hf Hd Hhd) as (Hs1 & Hf1 & Hd1).
    destruct (IH _ i _ Hs1 Hf1 Hd1 Htl) as (s' & Hl & Hs' & Hf' & Ht & Hx & Hi).
    exists s'. split; [done|]. split; [done|]. split; [done|].
    rewrite data_events_cons. destruct ev as [tag attrs|tag|d|]; simpl app; try done.
    rewrite last_cons. rewrite Ht, Hx, Hi. by destruct (last (data_events events)).
Qed.

(** A heading start tag opens a section without title or text, makes it
    current and sets the flag. *)
Lemma handle_starttag_header self tag attrs :
  is_header tag = true ->
  let self' := handle_starttag self tag attrs in
  section self' = Some (length (data self))
  /\ is_header_tag self' = true
  /\ exists s, data self' = data self ++ [s] /\ cs_title s = None /\ cs_text s = [].
Proof.
  intros Hh. unfold handle_starttag. rewrite Hh; simpl.
  set (i := length (data self)).
  set (self1 := mkContentParser _ _ _ _).
  assert (H1 : section self1 = Some i /\ is_header_tag self1 = true
               /\ exists s, data self1 = data self ++ [s] /\ cs_title s = None /\ cs_text s = [])
    by (repeat split; by exists ContentSection_new).
  revert H1. generalize self1. clear self1.
  induction attrs as [|a attrs IH]; intros st H1; simpl; [done|].
  apply IH. case_bool_decide; [|done].
  destruct H1 as (Hs & Hf & s & Hd & Ht & Hx).
  rewrite with_section_section, with_section_flag, (with_section_data _ _ i) by done.
  split; [done|]. split; [done|].
  exists (set_id (snd a) s). rewrite Hd. split; [|done].
  unfold i. by rewrite alter_app_r_alt, Nat.sub_diag.
Qed.

(** ** Entries of a section and of a page *)

Lemma appended_by_section_spec c toc url page_title i section :
  appended_by_section c toc url page_title i section
  = match _find_toc_by_id toc (cs_id section) with
    | Some toc_item =>
        [ {| e_title := Some (str_or (section_title_at c page_title i) (al_title toc_item));
             e_text := normalize_text (if bool_decide (indexing c = py "full")
                                       then join (py " ") (cs_text section) else []);
             e_location := url ++ al_url toc_item |} ]
    | None => []
    end.
Proof.
  unfold appended_by_section, create_entry_for_section; simpl.
  by destruct (_find_toc_by_id _ _).
Qed.

Lemma str_or_section_title c page_title i toc_item :
  str_or (section_title_at c page_title i) (al_title toc_item)
  = title_nonempty_rule c page_title i toc_item.
Proof.
  unfold section_title_at, title_nonempty_rule, str_or.
  destruct (full_path_in_title c && (i =? 0)%nat); simpl; [|done].
  destruct page_title; done.
Qed.

Lemma concat_imap_nil {A B} (l : list A) : concat (imap (fun _ _ => @nil B) l) = [].
Proof.
  change (fun (_ : nat) (_ : A) => @nil B) with ((fun (_ : nat) (_ : A) => @nil B) ∘ S).
  induction l as [|x l IH]; [done|]. rewrite imap_cons. simpl. exact IH.
Qed.

(** The entries of a page, section by section. *)
Lemma add_entry_from_context_sections rt self page content :
  page_content page = Some content ->
  let c := config self in
  let page_title := compose_title c page in
  let emit := bool_decide (indexing c ∈ [py "full"; py "sections"]) in
  exists self',
    add_entry_from_context rt self page = inr self'
    /\ config self' = c
    /\ _entries self'
       = _entries self
         ++ {| e_title := Some page_title;
               e_text := normalize_text
                           (if bool_decide (indexing c = py "full")
                            then rstrip_newline (stripped_html (parsed rt content)) else []);
               e_location := page_url page |}
            :: concat (imap (fun i section =>
                               if emit
                               then appended_by_section c (page_toc page) (page_url page)
                                      page_title i section
                               else [])
                         (data (parsed rt content))).
Proof.
  intros Hcontent c page_title emit.
  destruct (add_entry_from_context_entries rt self page content Hcontent)
    as (self' & Hrun & Hcfg & Hent).
  exists self'. split; [done|]. split; [done|].
  rewrite Hent. fold c page_title emit. destruct emit; [done|].
  by rewrite concat_imap_nil.
Qed.

Lemma find_toc_by_id_None toc id_ :
  (forall node, node ∈ preorder toc -> Some (al_id node) <> id_) ->
  _find_toc_by_id toc id_ = None.
Proof.
  intros Hall. rewrite find_toc_by_id_preorder.
  pose proof (find_first_split (fun n => id_matches n id_) (preorder toc)) as H.
  destruct (List.find _ _) as [x|]; [|done].
  destruct H as (before & after & Heq & Hx & _).
  apply id_matches_true in Hx. destruct (Hall x); [|done].
  rewrite Heq. apply elem_of_app. right. by left.
Qed.

(** * The claims *)

(** C1 (as amended). For every page with indexing 'full' or 'sections',
    the entry of a section whose id is that of a node of the table of
    contents has the composed page title when the section is the first
    one, full_path_in_title is enabled and the composed title is not
    empty; otherwise it has the title of the node. *)
Theorem section_entry_title rt self page content :
  page_content page = Some content ->
  indexing (config self) ∈ [py "full"; py "sections"] ->
  section_titles_follow title_nonempty_rule rt self page content.
Proof.
  intros Hcontent Hidx.
  destruct (add_entry_from_context_sections rt self page content Hcontent)
    as (self' & Hrun & _ & Hent).
  rewrite (bool_decide_eq_true_2 _ Hidx) in Hent.
  eexists self', _, _. split; [exact Hrun|]. split; [exact Hent|].
  split; [apply length_imap|].
  intros i section toc_item Hsec Hfind.
  rewrite list_lookup_imap, Hsec; simpl.
  rewrite appended_by_section_spec, Hfind.
  eexists; split; [reflexivity|]. simpl. by rewrite str_or_section_title.
Qed.

Lemma section_entry_title_witness :
  section_titles_follow title_nonempty_rule sample_runtime
    (SearchIndex_init (sample_config (py "full") true (PrebuildBool false)))
    sample_page (py "<html>").
Proof.
  apply section_entry_title; [reflexivity|]. apply list_elem_of_here.
Defined.

(** C1 as the specification states it does not hold: on a page without
    title and ancestors the composed title is empty, and the entry of the
    first section has the title of the node, not the empty title. *)
Lemma section_entry_title_counterexample :
  let self := SearchIndex_init (sample_config (py "full") true (PrebuildBool false)) in
  page_content untitled_page = Some (py "<h2>")
  /\ indexing (config self) ∈ [py "full"; py "sections"]
  /\ compose_title (config self) untitled_page = []
  /\ (exists self', add_entry_from_context untitled_runtime self untitled_page = inr self'
                    /\ e_title <$> _entries self' = [Some []; Some (py "Intro")])
  /\ ~ section_titles_follow title_as_stated untitled_runtime self untitled_page (py "<h2>").
Proof.
  intros self. split; [reflexivity|]. split; [apply list_elem_of_here|].
  split; [reflexivity|]. split; [eexists; split; reflexivity|].
  intros (self' & page_entry & per_section & Hrun & Hent & Hlen & Htitle).
  vm_compute in Hrun. injection Hrun as <-.
  destruct (Htitle 0 _ (mkAnchorLink (py "a") (py "Intro") (py "#a") []) eq_refl eq_refl)
    as (e & Hps & He).
  destruct per_section as [|p0 [|p1 ps]]; try discriminate Hlen.
  injection Hps as ->. vm_compute in Hent. injection Hent as _ <-.
  vm_compute in He. discriminate He.
Qed.

(** C2. Every entry appended to the store has a normalized text: no tab,
    newline, vertical tab, form feed, carriage return or non-breaking
    space, no whitespace at either end, no two spaces in a row. This holds
    for [_add_entry] on any text, and so for the entry of a page and the
    entries of its sections. *)
Theorem appended_text_is_normalized :
  (forall self title text loc,
      exists e, _entries (_add_entry self title text loc) = _entries self ++ [e]
                /\ e_text e = re_sub_spaces (strip (replace_char NBSP SPACE text))
                /\ text_normalized (e_text e))
  /\ (forall rt self page content,
         page_content page = Some content ->
         exists self' new,
           add_entry_from_context rt self page = inr self'
           /\ _entries self' = _entries self ++ new
           /\ Forall (fun e => text_normalized (e_text e)) new).
Proof.
  split.
  - intros self title text loc. eexists; split; [reflexivity|]. split; [reflexivity|].
    apply normalize_text_normalized.
  - intros rt self page content Hcontent.
    destruct (add_entry_from_context_sections rt self page content Hcontent)
      as (self' & Hrun & _ & Hent).
    eexists self', _. split; [exact Hrun|]. split; [exact Hent|].
    constructor; [apply normalize_text_normalized|].
    apply Forall_concat, Forall_forall. intros es Hes.
    apply list_elem_of_lookup in Hes as [i Hi].
    rewrite list_lookup_imap in Hi.
    destruct (data (parsed rt content) !! i) as [section|]; [|done].
    injection Hi as <-. destruct (bool_decide (_ ∈ _)); [|constructor].
    rewrite appended_by_section_spec. destruct (_find_toc_by_id _ _); [|constructor].
    constructor; [apply normalize_text_normalized|constructor].
Qed.

Lemma appended_text_is_normalized_witness :
  exists self' new,
    add_entry_from_context sample_runtime
      (SearchIndex_init (sample_config (py "full") true (PrebuildBool false))) sample_page
    = inr self'
    /\ _entries self' = [] ++ new
    /\ Forall (fun e => text_normalized (e_text e)) new.
Proof.
  exact (proj2 appended_text_is_normalized sample_runtime
           (SearchIndex_init (sample_config (py "full") true (PrebuildBool false)))
           sample_page (py "<html>") eq_refl).
Defined.

(** ** The serializer *)

Lemma json_dumps_default v : json_dumps true v = inr (encode v).
Proof. reflexivity. Qed.

Lemma generate_search_index_disabled rt self :
  prebuild_disabled (config self) ->
  generate_search_index rt self
  = {| out_self := self; out_log := []; out_result := inr (uncompiled_payload self) |}.
Proof.
  intros [Hn Hp]. unfold generate_search_index.
  rewrite json_dumps_default, Hn, Hp. reflexivity.
Qed.

(** C3. With the pre-build by node selected and a failing child process
    (the process cannot be started, it writes to its error stream, or its
    output is not JSON), [generate_search_index] returns the uncompiled
    serialization of the store and the configuration, which has no
    'index' key; it logs one warning, raises nothing and leaves the object
    as it is. The uncompiled serialization is what the call returns, for
    its store and configuration, when pre-build is disabled. *)
Theorem node_failure_keeps_uncompiled_payload rt self :
  selects_node (prebuild_index (config self)) = true ->
  node_fails rt (uncompiled_payload self) ->
  (exists cause,
      generate_search_index rt self
      = {| out_self := self;
           out_log := [(WARNING, msg_failed ++ cause)];
           out_result := inr (uncompiled_payload self) |})
  /\ uncompiled_payload self = encode (PDict (page_dicts self))
  /\ (page_dicts self).*1 = [py "docs"; py "config"]
  /\ (forall rt' other,
         prebuild_disabled (config other) ->
         generate_search_index rt' other
         = {| out_self := other; out_log := [];
              out_result := inr (uncompiled_payload other) |}).
Proof.
  intros Hsel Hfail. split; [|split; [reflexivity|split; [reflexivity|]]].
  - unfold generate_search_index. rewrite json_dumps_default, Hsel.
    unfold node_fails, uncompiled_payload in *.
    destruct (node_prebuild rt _) as [e|[idx err]].
    + destruct e; try done; by eexists.
    + destruct err as [|x err].
      * destruct Hfail as [?|[msg ->]]; [done|]. by eexists.
      * by eexists.
  - intros rt' other. apply generate_search_index_disabled.
Qed.

Lemma node_failure_keeps_uncompiled_payload_witness :
  let self :=
    {| _entries := [mkEntry (Some (py "Page")) (py "Hello") (py "/x/")];
       config := sample_config (py "full") false (PrebuildStr (py "node")) |} in
  exists cause,
    generate_search_index sample_runtime self
    = {| out_self := self;
         out_log := [(WARNING, msg_failed ++ cause)];
         out_result := inr (uncompiled_payload self) |}.
Proof.
  intros self.
  refine (proj1 (node_failure_keeps_uncompiled_payload sample_runtime self eq_refl _)).
  left. discriminate.
Defined.

(** C4. A section whose id is the id of no node of the table of contents
    appends no entry: [create_entry_for_section] leaves the store as it
    is, and in the entries of a page the list of that section is empty. *)
Theorem unmatched_section_dropped :
  (forall self section toc url title,
      (forall node, node ∈ preorder toc -> Some (al_id node) <> cs_id section) ->
      create_entry_for_section self section toc url title = self)
  /\ (forall rt self page content,
         page_content page = Some content ->
         exists self' page_entry per_section,
           add_entry_from_context rt self page = inr self'
           /\ _entries self' = _entries self ++ page_entry :: concat per_section
           /\ length per_section = length (data (parsed rt content))
           /\ forall i section,
                data (parsed rt content) !! i = Some section ->
                (forall node, node ∈ preorder (page_toc page) ->
                              Some (al_id node) <> cs_id section) ->
                per_section !! i = Some []).
Proof.
  split.
  - intros self section toc url title Hall. unfold create_entry_for_section.
    by rewrite (find_toc_by_id_None _ _ Hall).
  - intros rt self page content Hcontent.
    destruct (add_entry_from_context_sections rt self page content Hcontent)
      as (self' & Hrun & _ & Hent).
    eexists self', _, _. split; [exact Hrun|]. split; [exact Hent|].
    split; [apply length_imap|].
    intros i section Hsec Hall. rewrite list_lookup_imap, Hsec; simpl.
    destruct (bool_decide (_ ∈ _)); [|done].
    by rewrite appended_by_section_spec, (find_toc_by_id_None _ _ Hall).
Qed.

Lemma unmatched_section_dropped_witness :
  let self := SearchIndex_init (sample_config (py "full") true (PrebuildBool false)) in
  create_entry_for_section self (mkContentSection [py "Lost"] (Some (py "zz")) None)
    sample_toc (py "/x/") None = self.
Proof.
  intros self. apply (proj1 unmatched_section_dropped).
  intros node Hin. vm_compute in Hin.
  repeat (apply elem_of_cons in Hin as [->|Hin]; [discriminate|]).
  by apply elem_of_nil in Hin.
Defined.

(** C5. [_find_toc_by_id] returns the first node, in depth-first
    pre-order, whose id is the target: the nodes before it in document
    order have other ids, and a later node with the same id is not
    returned; it returns none exactly when no node has the id. *)
Theorem find_toc_by_id_first_in_document_order toc id_ :
  _find_toc_by_id toc id_ = List.find (fun node => id_matches node id_) (preorder toc)
  /\ match _find_toc_by_id toc id_ with
     | Some node =>
         exists before after,
           preorder toc = before ++ node :: after
           /\ Some (al_id node) = id_
           /\ Forall (fun n => Some (al_id n) <> id_) before
     | None => Forall (fun n => Some (al_id n) <> id_) (preorder toc)
     end.
Proof.
  split; [apply find_toc_by_id_preorder|].
  rewrite find_toc_by_id_preorder.
  pose proof (find_first_split (fun n => id_matches n id_) (preorder toc)) as H.
  destruct (List.find _ _) as [x|].
  - destruct H as (before & after & Heq & Hx & Hb).
    exists before, after. split; [done|]. split; [by apply id_matches_true|].
    eapply Forall_impl; [exact Hb|]. intros n. apply id_matches_false.
  - eapply Forall_impl; [exact H|]. intros n. apply id_matches_false.
Qed.

(** C6. With indexing 'sections', every entry a page appends, the entry
    of the page and those of its sections, has the empty text. *)
Theorem sections_indexing_empty_text rt self page content :
  page_content page = Some content ->
  indexing (config self) = py "sections" ->
  exists self' page_entry section_entries,
    add_entry_from_context rt self page = inr self'
    /\ _entries self' = _entries self ++ page_entry :: section_entries
    /\ Forall (fun e => e_text e = []) (page_entry :: section_entries).
Proof.
  intros Hcontent Hidx.
  destruct (add_entry_from_context_sections rt self page content Hcontent)
    as (self' & Hrun & _ & Hent).
  rewrite Hidx in Hent. simpl in Hent.
  eexists self', _, _. split; [exact Hrun|]. split; [exact Hent|].
  constructor; [reflexivity|].
  apply Forall_concat, Forall_forall. intros es Hes.
  apply list_elem_of_lookup in Hes as [i Hi].
  rewrite list_lookup_imap in Hi.
  destruct (data (parsed rt content) !! i) as [section|]; [|done].
  injection Hi as <-.
  rewrite appended_by_section_spec, Hidx. destruct (_find_toc_by_id _ _); [|constructor].
  constructor; [reflexivity|constructor].
Qed.

Lemma sections_indexing_empty_text_witness :
  exists self' page_entry section_entries,
    add_entry_from_context sample_runtime
      (SearchIndex_init (sample_config (py "sections") true (PrebuildBool false))) sample_page
    = inr self'
    /\ _entries self' = [] ++ page_entry :: section_entries
    /\ Forall (fun e => e_text e = []) (page_entry :: section_entries).
Proof.
  exact (sections_indexing_empty_text sample_runtime
           (SearchIndex_init (sample_config (py "sections") true (PrebuildBool false)))
           sample_page (py "<html>") eq_refl eq_refl).
Defined.

(** C7. On a document without heading start tags the parser has no
    section, and its stripped text is the text fragments of the document,
    in order, joined by newlines. *)
Theorem no_heading_no_section events :
  Forall (fun ev => is_heading_start ev = false) events ->
  let parser := feed ContentParser_init events in
  data parser = []
  /\ stripped_html parser = join [NEWLINE] (data_events events).
Proof.
  intros Hev parser. split.
  - by apply (feed_no_heading events ContentParser_init Hev).
  - unfold stripped_html, parser. by rewrite feed_stripped.
Qed.

Lemma no_heading_no_section_witness :
  let events := [Data (py "Lead"); StartTag (py "p") [(py "id", Some (py "h1"))];
                 Data (py "Hello"); EndTag (py "h2"); Unhandled; Data (py "world");
                 EndTag (py "p")] in
  data (feed ContentParser_init events) = []
  /\ stripped_html (feed ContentParser_init events) = join [NEWLINE] (data_events events).
Proof.
  intros events. apply (no_heading_no_section events).
  repeat constructor.
Defined.

(** C8. With pre-build disabled, [generate_search_index] returns the
    serialization of the store and the configuration whatever the
    libraries and the system do, logs nothing and leaves the object as it
    is: a second call returns the same string. *)
Theorem generate_search_index_idempotent rt1 rt2 self :
  prebuild_disabled (config self) ->
  let first := generate_search_index rt1 self in
  let second := generate_search_index rt2 (out_self first) in
  out_self first = self
  /\ out_self second = self
  /\ out_result first = inr (uncompiled_payload self)
  /\ out_result second = out_result first.
Proof.
  intros Hdis first second. unfold second, first.
  rewrite (generate_search_index_disabled rt1 self Hdis); simpl.
  rewrite (generate_search_index_disabled rt2 self Hdis); simpl.
  done.
Qed.

Lemma generate_search_index_idempotent_witness :
  let self :=
    {| _entries := [mkEntry (Some (py "Page")) (py "Hello") (py "/x/")];
       config := sample_config (py "full") false (PrebuildBool false) |} in
  let first := generate_search_index sample_runtime self in
  let second := generate_search_index untitled_runtime (out_self first) in
  out_self first = self
  /\ out_self second = self
  /\ out_result first = inr (uncompiled_payload self)
  /\ out_result second = out_result first.
Proof.
  intros self.
  apply (generate_search_index_idempotent sample_runtime untitled_runtime self).
  split; reflexivity.
Defined.

(** C9. While the parser is inside a heading (the flag is set and a
    section is current), text fragments, between tags that are not heading
    tags, leave the title of the section equal to the last fragment: each
    fragment overwrites the title, and none is added to the text. *)
Theorem heading_title_is_last_fragment self i s events d :
  is_header_tag self = true ->
  section self = Some i ->
  data self !! i = Some s ->
  Forall (fun ev => is_heading_tag_event ev = false) events ->
  last (data_events events) = Some d ->
  exists s',
    data (feed self events) !! i = Some s'
    /\ cs_title s' = Some d
    /\ cs_text s' = cs_text s
    /\ cs_id s' = cs_id s.
Proof.
  intros Hf Hs Hd Hev Hlast.
  destruct (feed_in_heading events self i s Hs Hf Hd Hev)
    as (s' & Hl & _ & _ & Ht & Hx & Hi).
  exists s'. rewrite Hlast in Ht. done.
Qed.

Lemma heading_title_is_last_fragment_witness :
  let self := handle_starttag ContentParser_init (py "h1") [(py "id", Some (py "t"))] in
  let events := [Data (py "Search "); StartTag (py "em") []; Data (py "index");
                 EndTag (py "em"); Data (py " API")] in
  exists s',
    data (feed self events) !! 0 = Some s'
    /\ cs_title s' = Some (py " API")
    /\ cs_text s' = []
    /\ cs_id s' = Some (py "t").
Proof.
  intros self events.
  apply (heading_title_is_last_fragment self 0
           (mkContentSection [] (Some (py "t")) None) events (py " API"));
    [reflexivity | reflexivity | reflexivity | repeat constructor | reflexivity].
Defined.

(** C10. [_add_entry] normalizes the text only: the title and the
    location of the appended entry are the values passed, whatever
    whitespace they hold, and the configuration is not touched. *)
Theorem add_entry_keeps_title_and_location self title text loc :
  exists e,
    _entries (_add_entry self title text loc) = _entries self ++ [e]
    /\ e_title e = title
    /\ e_location e = loc
    /\ e_text e = normalize_text text
    /\ config (_add_entry self title text loc) = config self.
Proof. by eexists. Qed.

(** ** The definitions on the sample data *)

Example sample_page_entries :
  add_entry_from_context sample_runtime
    (SearchIndex_init (sample_config (py "full") true (PrebuildBool false))) sample_page
  = inr {| _entries :=
             [mkEntry (Some (py "Root / Parent / Page")) (py "Lead Intro Hello world Lost")
                (py "/x/");
              mkEntry (Some (py "Root / Parent / Page")) (py "Hello world") (py "/x/#a")];
           config := sample_config (py "full") true (PrebuildBool false) |}.
Proof. vm_compute. reflexivity. Qed.

Example sample_title_with_whitespace :
  let title := Some ([9; 32] ++ py "A" ++ [10; 160] ++ py "B " ++ [10])%N in
  _entries (_add_entry (SearchIndex_init (sample_config (py "full") false (PrebuildBool false)))
              title ([9; 32] ++ py "A" ++ [10; 160] ++ py "B " ++ [10])%N (py " /x/ "))
  = [ {| e_title := title; e_text := py "A B"; e_location := py " /x/ " |} ].
Proof. reflexivity. Qed.

Example sample_find_first :
  al_url <$> _find_toc_by_id sample_toc (Some (py "a")) = Some (py "#a")
  /\ _find_toc_by_id sample_toc (Some (py "zz")) = None
  /\ _find_toc_by_id sample_toc None = None.
Proof. repeat split. Qed.

Example sample_spawn_error :
  let self := {| _entries := [];
                 config := sample_config (py "full") false (PrebuildBool true) |} in
  generate_search_index untitled_runtime self
  = {| out_self := self;
       out_log := [(WARNING, msg_failed ++ py "No such file or directory: 'node'")];
       out_result := inr (uncompiled_payload self) |}.
Proof. vm_compute. reflexivity. Qed.

Example sample_payload :
  out_result (generate_search_index sample_runtime
                {| _entries := [mkEntry None (py "a" ++ [233%N]) (py "/x/")];
                   config := sample_config (py "full") false (PrebuildStr (py "node")) |})
  = inr (py "{" ++ [34%N] ++ py "config" ++ [34%N] ++ py ":{" ++ [34%N]
         ++ py "full_path_in_title" ++ [34%N] ++ py ":false," ++ [34%N] ++ py "indexing"
         ++ [34%N] ++ py ":" ++ [34%N] ++ py "full" ++ [34%N] ++ py "," ++ [34%N] ++ py "lang"
         ++ [34%N] ++ py ":[" ++ [34%N] ++ py "en" ++ [34%N] ++ py "]," ++ [34%N]
         ++ py "min_search_length" ++ [34%N] ++ py ":3," ++ [34%N] ++ py "prebuild_index"
         ++ [34%N] ++ py ":" ++ [34%N] ++ py "node" ++ [34%N] ++ py "," ++ [34%N]
         ++ py "separator" ++ [34%N] ++ py ":" ++ [34%N] ++ py "[\\s\\-]+" ++ [34%N]
         ++ py "}," ++ [34%N] ++ py "docs" ++ [34%N] ++ py ":[{" ++ [34%N] ++ py "location"
         ++ [34%N] ++ py ":" ++ [34%N] ++ py "/x/" ++ [34%N] ++ py "," ++ [34%N] ++ py "text"
         ++ [34%N] ++ py ":" ++ [34%N] ++ py "a\u00e9" ++ [34%N] ++ py "," ++ [34%N]
         ++ py "title" ++ [34%N] ++ py ":null}]}").
Proof. vm_compute. reflexivity. Qed.

(** * Further properties of the code *)

(** ** The parser *)

Lemma starttag_attrs_loop attrs : forall st d s i,
  section st = Some i -> data st = d ++ [s] -> i = length d ->
  fold_left (fun self attr =>
               if bool_decide (fst attr = py "id")
               then with_section (set_id (snd attr)) self
               else self) attrs st
  = {| data := d ++ [set_id (heading_id_from (cs_id s) attrs) s];
       section := Some i;
       is_header_tag := is_header_tag st;
       _stripped_html := _stripped_html st |}.
Proof.
  induction attrs as [|a attrs IH]; intros st d s i Hs Hd Hi.
  - destruct st as [dt sc fl sh], s as [tx id_ ti]; simpl in *. by subst.
  - simpl. case_bool_decide as Hid.
    + rewrite (IH _ d (set_id (snd a) s) i); simpl.
      * by rewrite with_section_flag, with_section_stripped.
      * by rewrite with_section_section.
      * rewrite (with_section_data _ _ i Hs), Hd, Hi.
        by rewrite alter_app_r_alt, Nat.sub_diag.
      * done.
    + by rewrite (IH _ d s i Hs Hd Hi).
Qed.

(** A heading start tag appends a section without title and text whose
    id is the value of the last [id] attribute, and makes it current. *)
Lemma handle_starttag_header_closed self tag attrs :
  is_header tag = true ->
  handle_starttag self tag attrs
  = {| data := data self
               ++ [ {| cs_text := []; cs_id := heading_id attrs; cs_title := None |} ];
       section := Some (length (data self));
       is_header_tag := true;
       _stripped_html := _stripped_html self |}.
Proof.
  intros Hh. unfold handle_starttag. rewrite Hh; simpl.
  by rewrite (starttag_attrs_loop attrs _ (data self) ContentSection_new (length (data self))).
Qed.

Lemma handle_starttag_other self tag attrs :
  is_header tag = false -> handle_starttag self tag attrs = self.
Proof. intros Hh. unfold handle_starttag. by rewrite Hh. Qed.

Lemma handle_current_is_last self ev :
  current_is_last self -> current_is_last (handle self ev).
Proof.
  unfold current_is_last. intros H.
  destruct ev as [tag attrs|tag|d|]; simpl; [| | |done].
  - destruct (is_header tag) eqn:Hh.
    + rewrite handle_starttag_header_closed by done. simpl.
      rewrite length_app. simpl. lia.
    + by rewrite handle_starttag_other.
  - unfold handle_endtag. by destruct (negb _).
  - unfold handle_data; simpl. destruct (section self) as [i|] eqn:Hs; simpl.
    + destruct (is_header_tag self); unfold with_section; simpl; by rewrite length_alter.
    + done.
Qed.

Lemma feed_app self events1 events2 :
  feed self (events1 ++ events2) = feed (feed self events1) events2.
Proof. unfold feed. apply fold_left_app. Qed.

(** X1. After any document, the current section of the parser is the
    last element of [data]; there is none exactly while [data] is empty. *)
Theorem parser_current_section_is_last events :
  let parser := feed ContentParser_init events in
  match section parser with
  | None => data parser = []
  | Some i => S i = length (data parser) /\ is_Some (data parser !! i)
  end.
Proof.
  intros parser.
  assert (H : current_is_last parser).
  { unfold parser. generalize ContentParser_init (eq_refl : current_is_last ContentParser_init).
    induction events as [|ev events IH]; intros st Hst; [done|].
    rewrite feed_cons. by apply IH, handle_current_is_last. }
  unfold current_is_last in H. destruct (section parser) as [i|]; [|done].
  split; [done|]. apply lookup_lt_is_Some. lia.
Qed.

Lemma fmap_cs_id_alter (f : ContentSection -> ContentSection) i (l : list ContentSection) :
  (forall s, cs_id (f s) = cs_id s) -> cs_id <$> alter f i l = cs_id <$> l.
Proof.
  intros Hf. revert i. induction l as [|x l IH]; intros [|i]; simpl; try done.
  - by rewrite Hf.
  - f_equal. apply IH.
Qed.

Lemma handle_ids self ev :
  cs_id <$> data (handle self ev) = (cs_id <$> data self) ++ heading_ids [ev].
Proof.
  destruct ev as [tag attrs|tag|d|]; simpl.
  - unfold heading_ids; simpl. destruct (is_header tag) eqn:Hh.
    + rewrite handle_starttag_header_closed by done. simpl. by rewrite fmap_app.
    + rewrite handle_starttag_other by done. by rewrite app_nil_r.
  - unfold handle_endtag. destruct (negb _); by rewrite app_nil_r.
  - rewrite app_nil_r. unfold handle_data; simpl.
    destruct (section self) as [i|] eqn:Hs; [|done].
    destruct (is_header_tag self); unfold with_section; simpl; try rewrite Hs; simpl;
      by apply fmap_cs_id_alter.
  - by rewrite app_nil_r.
Qed.

Lemma heading_ids_cons ev events : heading_ids (ev :: events) = heading_ids [ev] ++ heading_ids events.
Proof. unfold heading_ids. simpl. by rewrite app_nil_r. Qed.

Lemma feed_ids events : forall self,
  cs_id <$> data (feed self events) = (cs_id <$> data self) ++ heading_ids events.
Proof.
  induction events as [|ev events IH]; intros self.
  - simpl. by rewrite app_nil_r.
  - rewrite feed_cons, IH, handle_ids, (heading_ids_cons ev events). by rewrite <- app_assoc.
Qed.

(** X2. The sections of a document are its heading start tags, one for
    one and in order: the id of each section is the value of the last
    [id] attribute of its tag, or [None] when the tag has none. *)
Theorem sections_follow_heading_tags events :
  let parser := feed ContentParser_init events in
  cs_id <$> data parser = heading_ids events
  /\ length (data parser) = length (filter (fun ev => is_heading_start ev = true) events).
Proof.
  intros parser. assert (Hids : cs_id <$> data parser = heading_ids events)
    by (unfold parser; by rewrite feed_ids).
  split; [done|].
  rewrite <- (length_fmap cs_id), Hids. clear.
  induction events as [|ev events IH]; [done|].
  rewrite heading_ids_cons, length_app, IH, filter_cons.
  assert (Hone : length (heading_ids [ev]) = if is_heading_start ev then 1 else 0).
  { destruct ev as [tag attrs|tag|d|]; try done.
    unfold heading_ids; simpl. by destruct (is_header tag). }
  rewrite Hone. case_decide as Hd; [by rewrite Hd|].
  by destruct (is_heading_start ev).
Qed.

(** X3. Whatever the document, the stripped text of the parser is its
    text fragments in order, joined by newlines: headings neither remove
    nor reorder text. *)
Theorem stripped_html_all_fragments events :
  stripped_html (feed ContentParser_init events) = join [NEWLINE] (data_events events).
Proof. unfold stripped_html. by rewrite feed_stripped. Qed.

Lemma handle_same_sections a b ev :
  same_sections a b -> same_sections (handle a ev) (handle b ev).
Proof.
  intros (Hd & Hs & Hf). destruct ev as [tag attrs|tag|d|]; simpl; [| | |done].
  - destruct (is_header tag) eqn:Hh.
    + rewrite !handle_starttag_header_closed by done. unfold same_sections; simpl.
      by rewrite Hd.
    + by rewrite !handle_starttag_other.
  - unfold handle_endtag. destruct (negb _); unfold same_sections; simpl; done.
  - unfold handle_data, with_section; simpl. rewrite Hs, Hf.
    destruct (section b) as [i|]; [|done].
    destruct (is_header_tag b); unfold same_sections; simpl; by rewrite Hd.
Qed.

Lemma feed_same_sections events : forall a b,
  same_sections a b -> same_sections (feed a events) (feed b events).
Proof.
  induction events as [|ev events IH]; intros a b H; [done|].
  rewrite !feed_cons. by apply IH, handle_same_sections.
Qed.

Lemma feed_before_first_heading events : forall self,
  Forall (fun ev => is_heading_start ev = false) events ->
  same_sections self ContentParser_init ->
  same_sections (feed self events) ContentParser_init.
Proof.
  induction events as [|ev events IH]; intros self Hev Hsame; [done|].
  inversion Hev as [|? ? Hhd Htl]; subst. rewrite feed_cons. apply IH; [done|].
  destruct Hsame as (Hd & Hs & Hf). simpl in Hd, Hs, Hf.
  destruct ev as [tag attrs|tag|d|]; simpl in *.
  - by rewrite handle_starttag_other.
  - unfold handle_endtag. destruct (negb _); unfold same_sections; simpl; done.
  - unfold handle_data; simpl. rewrite Hs. unfold same_sections; simpl. done.
  - done.
Qed.

(** X4. What comes before the first heading start tag of a document
    (text, other tags, stray heading end tags) belongs to no section: the
    sections are those of the rest of the document. *)
Theorem content_before_first_heading_ignored before events :
  Forall (fun ev => is_heading_start ev = false) before ->
  data (feed ContentParser_init (before ++ events)) = data (feed ContentParser_init events).
Proof.
  intros Hbefore. rewrite feed_app.
  apply (feed_same_sections events), feed_before_first_heading; done.
Qed.

Lemma content_before_first_heading_ignored_witness :
  data (feed ContentParser_init
          ([Data (py "Lead"); EndTag (py "h1"); StartTag (py "p") []] ++ untitled_events))
  = data (feed ContentParser_init untitled_events).
Proof.
  apply content_before_first_heading_ignored. repeat constructor.
Defined.

Lemma handle_in_body self i s ev :
  section self = Some i -> is_header_tag self = false -> data self !! i = Some s ->
  is_heading_start ev = false ->
  section (handle self ev) = Some i
  /\ is_header_tag (handle self ev) = false
  /\ data (handle self ev) !! i
     = Some (match ev with Data d => text_append (rstrip_newline d) s | _ => s end).
Proof.
  intros Hs Hf Hd Hev. destruct ev as [tag attrs|tag|d|]; simpl in *.
  - by rewrite handle_starttag_other.
  - unfold handle_endtag. by destruct (negb _).
  - unfold handle_data, with_section; simpl. rewrite Hs, Hf; simpl.
    by rewrite list_lookup_alter_eq, Hd.
  - done.
Qed.

(** X5. Outside a heading (the flag is clear, a section is current) and
    until the next heading start tag, every text fragment is appended to
    the text of the current section with its trailing newlines removed;
    the title and the id of the section stay. A heading end tag does not
    close the section. *)
Theorem body_text_accumulates events : forall self i s,
  is_header_tag self = false ->
  section self = Some i ->
  data self !! i = Some s ->
  Forall (fun ev => is_heading_start ev = false) events ->
  exists s',
    data (feed self events) !! i = Some s'
    /\ cs_text s' = cs_text s ++ (rstrip_newline <$> data_events events)
    /\ cs_title s' = cs_title s
    /\ cs_id s' = cs_id s.
Proof.
  induction events as [|ev events IH]; intros self i s Hf Hs Hd Hev.
  - exists s. simpl. by rewrite app_nil_r.
  - inversion Hev as [|? ? Hhd Htl]; subst. rewrite feed_cons.
    destruct (handle_in_body self i s ev Hs Hf Hd Hhd) as (Hs1 & Hf1 & Hd1).
    destruct (IH _ i _ Hf1 Hs1 Hd1 Htl) as (s' & Hl & Hx & Ht & Hi).
    exists s'. split; [done|]. rewrite Hx, Ht, Hi, data_events_cons.
    destruct ev as [tag attrs|tag|d|]; simpl; try done.
    by rewrite <- app_assoc.
Qed.

Lemma body_text_accumulates_witness :
  let self := feed ContentParser_init
                [StartTag (py "h2") [(py "id", Some (py "a"))]; Data (py "Intro");
                 EndTag (py "h2")] in
  let events := [StartTag (py "p") []; Data (py "Hello" ++ [NEWLINE; NEWLINE]);
                 EndTag (py "p"); EndTag (py "h2"); Data (py "world")] in
  exists s',
    data (feed self events) !! 0 = Some s'
    /\ cs_text s' = [] ++ (rstrip_newline <$> data_events events)
    /\ cs_title s' = Some (py "Intro")
    /\ cs_id s' = Some (py "a").
Proof.
  intros self events.
  apply (body_text_accumulates events self 0
           (mkContentSection [] (Some (py "a")) (Some (py "Intro"))));
    [reflexivity | reflexivity | reflexivity | repeat constructor].
Defined.

Lemma handle_take n self i ev :
  section self = Some i -> n <= i -> i < length (data self) ->
  (exists i', section (handle self ev) = Some i' /\ n <= i'
              /\ i' < length (data (handle self ev)))
  /\ take n (data (handle self ev)) = take n (data self).
Proof.
  intros Hs Hn Hi. destruct ev as [tag attrs|tag|d|]; simpl.
  - destruct (is_header tag) eqn:Hh.
    + rewrite handle_starttag_header_closed by done. simpl. split.
      * eexists; split; [done|]. rewrite length_app; simpl. lia.
      * rewrite take_app_le by lia. done.
    + rewrite handle_starttag_other by done. eauto.
  - unfold handle_endtag. destruct (negb _); simpl; eauto.
  - unfold handle_data, with_section; simpl. rewrite Hs.
    destruct (is_header_tag self); simpl; rewrite length_alter, take_alter_ge by done; eauto.
  - eauto.
Qed.

Lemma feed_take n events : forall self i,
  section self = Some i -> n <= i -> i < length (data self) ->
  take n (data (feed self events)) = take n (data self).
Proof.
  induction events as [|ev events IH]; intros self i Hs Hn Hi; [done|].
  rewrite feed_cons.
  destruct (handle_take n self i ev Hs Hn Hi) as [(i' & Hs' & Hn' & Hi') Htake].
  by rewrite (IH _ i' Hs' Hn' Hi').
Qed.

(** X6. Once a heading start tag is seen, the sections before it are
    never written again: they are the sections of the document up to
    that tag, whatever follows. *)
Theorem earlier_sections_are_frozen events1 tag attrs events2 :
  is_header tag = true ->
  let earlier := data (feed ContentParser_init events1) in
  take (length earlier)
    (data (feed ContentParser_init (events1 ++ StartTag tag attrs :: events2)))
  = earlier.
Proof.
  intros Hh earlier. rewrite feed_app, feed_cons. simpl handle.
  rewrite handle_starttag_header_closed by done. fold earlier.
  erewrite feed_take; simpl; [apply take_app_length|reflexivity|lia|].
  rewrite length_app; simpl. lia.
Qed.

Lemma earlier_sections_are_frozen_witness :
  take (length (data (feed ContentParser_init untitled_events)))
    (data (feed ContentParser_init
             (untitled_events ++ StartTag (py "h3") [] :: [Data (py "More"); EndTag (py "h3");
                                                          Data (py "text")])))
  = data (feed ContentParser_init untitled_events).
Proof.
  apply (earlier_sections_are_frozen untitled_events (py "h3") []). reflexivity.
Defined.


(** ** Entries *)

Lemma find_toc_by_id_no_id toc : _find_toc_by_id toc None = None.
Proof. apply find_toc_by_id_None. intros node _. discriminate. Qed.

(** X8. A section of a heading without [id] attribute (or with an [id]
    attribute without value) is never indexed: no node of a table of
    contents matches, and the store is left as it is. *)
Theorem section_without_id_dropped self section toc url title :
  cs_id section = None ->
  create_entry_for_section self section toc url title = self.
Proof.
  intros Hid. unfold create_entry_for_section.
  by rewrite Hid, find_toc_by_id_no_id.
Qed.

Lemma section_without_id_dropped_witness :
  let self := SearchIndex_init (sample_config (py "full") true (PrebuildBool false)) in
  create_entry_for_section self (mkContentSection [py "Body"] None (Some (py "Top")))
    sample_toc (py "/x/") (Some (py "Page")) = self.
Proof.
  intros self. apply section_without_id_dropped. reflexivity.
Defined.

Lemma fold_left_cons_reverse {A} (l acc : list A) :
  fold_left (fun parts x => x :: parts) l acc = reverse l ++ acc.
Proof.
  revert acc. induction l as [|x l IH]; intros acc; simpl; [done|].
  by rewrite IH, reverse_cons, <- app_assoc.
Qed.

(** X9. The composed title lists the ancestors from the root down to the
    parent, then the page, joined by " / "; the ancestors appear only
    with full_path_in_title, and a page without title (or with an empty
    one) contributes nothing. *)
Theorem compose_title_root_first c page :
  compose_title c page
  = join (py " / ")
      ((if full_path_in_title c then reverse (page_ancestors page) else [])
       ++ match page_title page with
          | None | Some [] => []
          | Some t => [t]
          end).
Proof.
  unfold compose_title. destruct (full_path_in_title c); [|done].
  by rewrite fold_left_cons_reverse.
Qed.

(** X10. Whatever the indexing, a page with content appends its own
    entry first: the composed title, the page URL, and as text the
    normalized stripped text of the page under 'full', the empty text
    otherwise. The configuration is not changed. *)
Theorem page_entry_comes_first rt self page content :
  page_content page = Some content ->
  exists self' rest,
    add_entry_from_context rt self page = inr self'
    /\ config self' = config self
    /\ _entries self'
       = _entries self
         ++ {| e_title := Some (compose_title (config self) page);
               e_text := if bool_decide (indexing (config self) = py "full")
                         then normalize_text (rstrip_newline
                                                (join [NEWLINE]
                                                   (data_events (html_events rt content))))
                         else [];
               e_location := page_url page |} :: rest.
Proof.
  intros Hcontent.
  destruct (add_entry_from_context_sections rt self page content Hcontent)
    as (self' & Hrun & Hcfg & Hent).
  eexists self', _. split; [exact Hrun|]. split; [exact Hcfg|].
  rewrite Hent. f_equal. f_equal. f_equal.
  unfold parsed, stripped_html. rewrite feed_stripped. simpl.
  by destruct (bool_decide _).
Qed.

Lemma page_entry_comes_first_witness :
  let self := SearchIndex_init (sample_config (py "full") false (PrebuildBool false)) in
  exists self' rest,
    add_entry_from_context sample_runtime self sample_page = inr self'
    /\ config self' = config self
    /\ _entries self'
       = _entries self
         ++ {| e_title := Some (compose_title (config self) sample_page);
               e_text := if bool_decide (indexing (config self) = py "full")
                         then normalize_text (rstrip_newline
                                                (join [NEWLINE]
                                                   (data_events
                                                      (html_events sample_runtime
                                                         (py "<html>")))))
                         else [];
               e_location := page_url sample_page |} :: rest.
Proof.
  intros self. apply (page_entry_comes_first sample_runtime self sample_page). reflexivity.
Defined.

(** X11. Under 'full' or 'sections', the entry of a section whose id is
    that of a node of the table of contents has as location the page URL
    followed by the URL of the node, and as text the fragments of the
    section joined by spaces and normalized under 'full', the empty text
    under 'sections'. *)
Theorem section_entry_text_and_location rt self page content :
  page_content page = Some content ->
  indexing (config self) ∈ [py "full"; py "sections"] ->
  exists self' page_entry per_section,
    add_entry_from_context rt self page = inr self'
    /\ _entries self' = _entries self ++ page_entry :: concat per_section
    /\ length per_section = length (data (parsed rt content))
    /\ forall i section toc_item,
         data (parsed rt content) !! i = Some section ->
         _find_toc_by_id (page_toc page) (cs_id section) = Some toc_item ->
         exists e, per_section !! i = Some [e]
                   /\ e_location e = page_url page ++ al_url toc_item
                   /\ e_text e = if bool_decide (indexing (config self) = py "full")
                                 then normalize_text (join (py " ") (cs_text section))
                                 else [].
Proof.
  intros Hcontent Hidx.
  destruct (add_entry_from_context_sections rt self page content Hcontent)
    as (self' & Hrun & _ & Hent).
  rewrite (bool_decide_eq_true_2 _ Hidx) in Hent.
  eexists self', _, _. split; [exact Hrun|]. split; [exact Hent|].
  split; [apply length_imap|].
  intros i section toc_item Hsec Hfind.
  rewrite list_lookup_imap, Hsec; simpl.
  rewrite appended_by_section_spec, Hfind.
  eexists; split; [reflexivity|]. simpl. split; [done|].
  by destruct (bool_decide _).
Qed.

Lemma section_entry_text_and_location_witness :
  let self := SearchIndex_init (sample_config (py "full") false (PrebuildBool false)) in
  exists self' page_entry per_section,
    add_entry_from_context sample_runtime self sample_page = inr self'
    /\ _entries self' = _entries self ++ page_entry :: concat per_section
    /\ length per_section = length (data (parsed sample_runtime (py "<html>")))
    /\ forall i section toc_item,
         data (parsed sample_runtime (py "<html>")) !! i = Some section ->
         _find_toc_by_id (page_toc sample_page) (cs_id section) = Some toc_item ->
         exists e, per_section !! i = Some [e]
                   /\ e_location e = page_url sample_page ++ al_url toc_item
                   /\ e_text e = if bool_decide (indexing (config self) = py "full")
                                 then normalize_text (join (py " ") (cs_text section))
                                 else [].
Proof.
  intros self.
  apply (section_entry_text_and_location sample_runtime self sample_page);
    [reflexivity|apply list_elem_of_here].
Defined.

(** X12. With an indexing other than 'full' and 'sections', a page
    appends one entry only, its own, with the empty text: the sections
    are not indexed. *)
Theorem other_indexing_page_entry_only rt self page content :
  page_content page = Some content ->
  indexing (config self) ∉ [py "full"; py "sections"] ->
  exists self',
    add_entry_from_context rt self page = inr self'
    /\ _entries self'
       = _entries self
         ++ [ {| e_title := Some (compose_title (config self) page);
                 e_text := [];
                 e_location := page_url page |} ].
Proof.
  intros Hcontent Hidx.
  destruct (add_entry_from_context_entries rt self page content Hcontent)
    as (self' & Hrun & _ & Hent).
  exists self'. split; [exact Hrun|]. rewrite Hent.
  rewrite (bool_decide_eq_false_2 _ Hidx).
  rewrite (bool_decide_eq_false_2 (indexing (config self) = py "full")); [done|].
  intros Heq. apply Hidx. rewrite Heq. apply list_elem_of_here.
Qed.

Lemma other_indexing_page_entry_only_witness :
  let self := SearchIndex_init (sample_config (py "titles") true (PrebuildBool false)) in
  exists self',
    add_entry_from_context sample_runtime self sample_page = inr self'
    /\ _entries self'
       = _entries self
         ++ [ {| e_title := Some (compose_title (config self) sample_page);
                 e_text := [];
                 e_location := page_url sample_page |} ].
Proof.
  intros self.
  apply (other_indexing_page_entry_only sample_runtime self sample_page (py "<html>"));
    [reflexivity|].
  intros Hin. vm_compute in Hin.
  repeat (apply elem_of_cons in Hin as [Hin|Hin]; [discriminate|]).
  by apply elem_of_nil in Hin.
Defined.

Lemma length_concat_imap_le {A B} (f : nat -> A -> list B) (l : list A) :
  (forall i x, length (f i x) <= 1) -> length (concat (imap f l)) <= length l.
Proof.
  revert f. induction l as [|x l IH]; intros f Hf; [done|].
  rewrite imap_cons. simpl. rewrite length_app.
  specialize (IH (f ∘ S) (fun i y => Hf (S i) y)). specialize (Hf 0 x). lia.
Qed.

(** X13. A page appends at least its own entry and at most one entry
    more for each heading start tag of its document. *)
Theorem page_entries_bounded rt self page content :
  page_content page = Some content ->
  exists self',
    add_entry_from_context rt self page = inr self'
    /\ length (_entries self) < length (_entries self')
    /\ length (_entries self')
       <= length (_entries self) + 1
          + length (filter (fun ev => is_heading_start ev = true) (html_events rt content)).
Proof.
  intros Hcontent.
  destruct (add_entry_from_context_sections rt self page content Hcontent)
    as (self' & Hrun & _ & Hent).
  exists self'. split; [exact Hrun|]. rewrite Hent, length_app. simpl.
  set (secs := concat _).
  assert (Hsecs : length secs <= length (data (parsed rt content))).
  { apply length_concat_imap_le. intros i x.
    destruct (bool_decide (_ ∈ _)); [|simpl; lia].
    rewrite appended_by_section_spec. destruct (_find_toc_by_id _ _); simpl; lia. }
  assert (Hlen : length (data (parsed rt content))
                 = length (filter (fun ev => is_heading_start ev = true)
                             (html_events rt content))).
  { unfold parsed. rewrite <- (length_fmap cs_id), feed_ids. simpl.
    generalize (html_events rt content). clear. intros events.
    induction events as [|ev events IH]; [done|].
    rewrite heading_ids_cons, length_app, IH, filter_cons.
    assert (Hone : length (heading_ids [ev]) = if is_heading_start ev then 1 else 0).
    { destruct ev as [tag attrs|tag|d|]; try done.
      unfold heading_ids; simpl. by destruct (is_header tag). }
    rewrite Hone. case_decide as Hd; [by rewrite Hd|].
    by destruct (is_heading_start ev). }
  rewrite <- Hlen. lia.
Qed.

Lemma page_entries_bounded_witness :
  let self := SearchIndex_init (sample_config (py "full") false (PrebuildBool false)) in
  exists self',
    add_entry_from_context sample_runtime self sample_page = inr self'
    /\ length (_entries self) < length (_entries self')
    /\ length (_entries self')
       <= length (_entries self) + 1
          + length (filter (fun ev => is_heading_start ev = true)
                      (html_events sample_runtime (py "<html>"))).
Proof.
  intros self. apply (page_entries_bounded sample_runtime self sample_page). reflexivity.
Defined.

(** X14. The store is append-only and the entries of a page do not
    depend on it: a page appends to any store what it appends to the
    empty store of the same configuration. *)
Theorem page_entries_independent_of_store rt self page content :
  page_content page = Some content ->
  exists self' alone,
    add_entry_from_context rt self page = inr self'
    /\ add_entry_from_context rt (SearchIndex_init (config self)) page = inr alone
    /\ _entries self' = _entries self ++ _entries alone
    /\ config self' = config self.
Proof.
  intros Hcontent.
  destruct (add_entry_from_context_sections rt self page content Hcontent)
    as (self' & Hrun & Hcfg & Hent).
  destruct (add_entry_from_context_sections rt (SearchIndex_init (config self)) page content
              Hcontent) as (alone & Hrun0 & _ & Hent0).
  exists self', alone. split; [exact Hrun|]. split; [exact Hrun0|]. split; [|exact Hcfg].
  rewrite Hent, Hent0. done.
Qed.

Lemma page_entries_independent_of_store_witness :
  let self := {| _entries := [mkEntry (Some (py "Old")) (py "text") (py "/old/")];
                 config := sample_config (py "full") true (PrebuildBool false) |} in
  exists self' alone,
    add_entry_from_context sample_runtime self sample_page = inr self'
    /\ add_entry_from_context sample_runtime (SearchIndex_init (config self)) sample_page
       = inr alone
    /\ _entries self' = _entries self ++ _entries alone
    /\ config self' = config self.
Proof.
  intros self.
  apply (page_entries_independent_of_store sample_runtime self sample_page (py "<html>")).
  reflexivity.
Defined.

(** ** Normalization of the text *)

Lemma lstrip_id p s : (forall c, head s = Some c -> p c = false) -> lstrip p s = s.
Proof.
  destruct s as [|x s]; [done|]. intros H. simpl. by rewrite (H x).
Qed.

Lemma rstrip_id p s : (forall c, last s = Some c -> p c = false) -> rstrip p s = s.
Proof.
  intros H. unfold rstrip. rewrite lstrip_id, reverse_involutive; [done|].
  intros c. rewrite head_reverse. apply H.
Qed.

Lemma replace_char_id old new s : old ∉ s -> replace_char old new s = s.
Proof.
  unfold replace_char. induction s as [|x s IH]; [done|].
  intros Hnot. apply not_elem_of_cons in Hnot as [Hx Hs]. simpl.
  rewrite (IH Hs). destruct (N.eqb_spec x old); congruence.
Qed.

Lemma re_sub_from_id s : forall b,
  (forall c, c ∈ s -> re_space_class c = true -> c = SPACE) ->
  (forall i, s !! i = Some SPACE -> s !! S i <> Some SPACE) ->
  (b = true -> head s <> Some SPACE) ->
  re_sub_from b s = s.
Proof.
  induction s as [|x s IH]; intros b Hcls Hsingle Hrun; [done|]. simpl.
  assert (Htail : forall i, s !! i = Some SPACE -> s !! S i <> Some SPACE)
    by (intros i; apply (Hsingle (S i))).
  assert (Hcls' : forall c, c ∈ s -> re_space_class c = true -> c = SPACE)
    by (intros c Hc; apply Hcls; by right).
  destruct (re_space_class x) eqn:Ex.
  - assert (x = SPACE) as -> by (apply Hcls; [by left|done]).
    destruct b; [by destruct Hrun|].
    f_equal. apply IH; [done|done|]. intros _. rewrite head_lookup. by apply (Hsingle 0).
  - f_equal. apply IH; [done|done|done].
Qed.

Lemma text_normalized_fixed u : text_normalized u -> normalize_text u = u.
Proof.
  intros (Hbad & Hhead & Hlast & Hsingle). unfold normalize_text, re_sub_spaces, strip.
  rewrite replace_char_id.
  - rewrite (lstrip_id _ u Hhead), (rstrip_id _ u Hlast).
    apply re_sub_from_id; [|done|done].
    intros c Hc Hcls. specialize (Hbad c Hc).
    rewrite !not_elem_of_cons in Hbad. unfold re_space_class in Hcls.
    repeat (apply orb_prop in Hcls as [Hcls|Hcls]); apply N.eqb_eq in Hcls; subst c;
      try reflexivity; intuition congruence.
  - intros Hin. apply (Hbad _ Hin). rewrite !elem_of_cons. tauto.
Qed.

(** X15. Normalizing a text twice is normalizing it once: the texts of
    the store are left as they are by a further normalization. *)
Theorem normalize_text_idempotent text :
  normalize_text (normalize_text text) = normalize_text text.
Proof. apply text_normalized_fixed, normalize_text_normalized. Qed.

Lemma isspace_not_visible c : py_isspace c = true -> ~ visible c.
Proof. unfold visible. congruence. Qed.

Lemma filter_visible_lstrip p s :
  (forall c, p c = true -> py_isspace c = true) ->
  filter visible (lstrip p s) = filter visible s.
Proof.
  intros Hp. induction s as [|x s IH]; [done|]. simpl.
  destruct (p x) eqn:E; [|done].
  rewrite IH, (filter_cons_False _ x); [done|]. by apply isspace_not_visible, Hp.
Qed.

Lemma filter_visible_rstrip p s :
  (forall c, p c = true -> py_isspace c = true) ->
  filter visible (rstrip p s) = filter visible s.
Proof.
  intros Hp. unfold rstrip.
  by rewrite filter_reverse, filter_visible_lstrip, filter_reverse, reverse_involutive.
Qed.

Lemma filter_visible_replace s :
  filter visible (replace_char NBSP SPACE s) = filter visible s.
Proof.
  unfold replace_char. induction s as [|x s IH]; [done|]. simpl.
  destruct (N.eqb_spec x NBSP) as [->|Hne].
  - rewrite !filter_cons_False; [done| |]; by apply isspace_not_visible.
  - rewrite !(filter_cons _ x), IH. done.
Qed.

Lemma filter_visible_re_sub s : forall b,
  filter visible (re_sub_from b s) = filter visible s.
Proof.
  induction s as [|x s IH]; intros b; [done|]. simpl.
  destruct (re_space_class x) eqn:Ex.
  - rewrite (filter_cons_False _ x s)
      by (by apply isspace_not_visible, re_space_class_isspace).
    destruct b; [apply IH|].
    rewrite filter_cons_False by (by apply isspace_not_visible). apply IH.
  - rewrite !(filter_cons _ x), IH. done.
Qed.

(** X16. Normalization touches whitespace only: the characters that are
    not whitespace are kept, all of them and in their order. *)
Theorem normalize_text_keeps_visible text :
  filter visible (normalize_text text) = filter visible text.
Proof.
  unfold normalize_text, re_sub_spaces, strip.
  rewrite filter_visible_re_sub, filter_visible_rstrip, filter_visible_lstrip by done.
  apply filter_visible_replace.
Qed.

Lemma lstrip_nil_iff p s : lstrip p s = [] <-> Forall (fun c => p c = true) s.
Proof.
  induction s as [|x s IH]; simpl; [by split|].
  destruct (p x) eqn:E.
  - rewrite IH. split; [by constructor|]. by inversion 1.
  - split; [done|]. inversion 1; congruence.
Qed.

Lemma rstrip_nil_iff p s : rstrip p s = [] <-> Forall (fun c => p c = true) s.
Proof.
  unfold rstrip. rewrite <- (reverse_involutive s) at 2.
  rewrite Forall_reverse, <- lstrip_nil_iff.
  split; [intros H|by intros ->].
  apply (f_equal reverse) in H. by rewrite reverse_involutive in H.
Qed.

Lemma strip_nil_iff s : strip s = [] <-> Forall (fun c => py_isspace c = true) s.
Proof.
  unfold strip. rewrite rstrip_nil_iff. split.
  - intros H. induction s as [|x s IH]; [done|]. simpl in H.
    destruct (py_isspace x) eqn:E; [constructor; auto|].
    inversion H; congruence.
  - intros H. by rewrite (proj2 (lstrip_nil_iff _ _) H).
Qed.

(** X17. The normalized text is empty exactly for a text of whitespace
    only (the empty text among them): such a page or section is indexed
    with the empty text. *)
Theorem normalize_text_empty_iff text :
  normalize_text text = [] <-> Forall (fun c => py_isspace c = true) text.
Proof.
  unfold normalize_text, re_sub_spaces.
  assert (Hsub : forall s, re_sub_from false s = [] <-> s = []).
  { intros [|x s]; [done|]. simpl. by destruct (re_space_class x). }
  rewrite Hsub, strip_nil_iff. unfold replace_char. rewrite Forall_fmap.
  apply Forall_iff. intros c. simpl.
  destruct (N.eqb_spec c NBSP) as [->|Hne]; [done|done].
Qed.

Lemma normalize_text_empty_iff_witness :
  normalize_text [9; 160; 8195; 10; 12288]%N = [].
Proof.
  apply (proj2 (normalize_text_empty_iff [9; 160; 8195; 10; 12288]%N)).
  repeat constructor.
Defined.

(** ** The serializer and the pre-build *)

Lemma entries_serializable (entries : list Entry) :
  forallb serializable (map entry_dict entries) = true.
Proof.
  induction entries as [|e entries IH]; [done|]. simpl. rewrite IH.
  by destruct (e_title e).
Qed.

Lemma payload_serializable self key index :
  serializable (PDict (page_dicts self ++ [(key, index)]))
  = serializable (config_dict (config self)) && serializable index.
Proof.
  unfold page_dicts. cbn [app forallb serializable].
  rewrite entries_serializable. simpl.
  by rewrite andb_true_r.
Qed.

(** X18. With the 'python' strategy and lunr.py not installed, the call
    falls back to the uncompiled serialization, logs one warning that
    names the library, raises nothing and leaves the object as it is. *)
Theorem python_without_lunr_falls_back rt self :
  prebuild_index (config self) = PrebuildStr (py "python") ->
  haslunrpy rt = false ->
  generate_search_index rt self
  = {| out_self := self;
       out_log := [(WARNING, msg_no_lunr)];
       out_result := inr (uncompiled_payload self) |}.
Proof.
  intros Hp Hl. unfold generate_search_index.
  rewrite json_dumps_default, Hp, Hl. reflexivity.
Qed.

Lemma python_without_lunr_falls_back_witness :
  let self := {| _entries := [mkEntry (Some (py "Page")) (py "Hello") (py "/x/")];
                 config := sample_config (py "full") false (PrebuildStr (py "python")) |} in
  generate_search_index sample_runtime self
  = {| out_self := self;
       out_log := [(WARNING, msg_no_lunr)];
       out_result := inr (uncompiled_payload self) |}.
Proof.
  intros self. apply python_without_lunr_falls_back; reflexivity.
Defined.

(** X19. With the pre-build by node selected, a child process that
    writes nothing to its error stream and an output that parses, the call
    returns the serialization of docs, config and the parsed index under
    the key 'index', and logs at debug level only, provided the
    configuration and the index hold values of JSON types. *)
Theorem node_success_payload_has_index rt self idx index :
  selects_node (prebuild_index (config self)) = true ->
  node_prebuild rt (uncompiled_payload self) = inr (idx, []) ->
  json_loads rt idx = inr index ->
  serializable (config_dict (config self)) = true ->
  serializable index = true ->
  generate_search_index rt self
  = {| out_self := self;
       out_log := [(DEBUG, msg_created)];
       out_result := inr (encode (PDict (page_dicts self ++ [(py "index", index)]))) |}
  /\ (page_dicts self ++ [(py "index", index)]).*1 = [py "docs"; py "config"; py "index"].
Proof.
  intros Hsel Hnode Hloads Hcfg Hidx. split; [|reflexivity].
  unfold generate_search_index. rewrite json_dumps_default, Hsel.
  unfold uncompiled_payload in Hnode. rewrite Hnode, Hloads.
  unfold json_dumps. rewrite payload_serializable, Hcfg, Hidx. reflexivity.
Qed.

Lemma node_success_payload_has_index_witness :
  let self := {| _entries := [mkEntry (Some (py "Page")) (py "Hello") (py "/x/")];
                 config := sample_config (py "full") false (PrebuildBool true) |} in
  generate_search_index working_runtime self
  = {| out_self := self;
       out_log := [(DEBUG, msg_created)];
       out_result := inr (encode (PDict (page_dicts self ++ [(py "index", PDict [])]))) |}
  /\ (page_dicts self ++ [(py "index", PDict [])]).*1 = [py "docs"; py "config"; py "index"].
Proof.
  intros self.
  apply (node_success_payload_has_index working_runtime self (py "{}") (PDict []));
    reflexivity.
Defined.

(** X20. The second serialization has no [default=str]: when the
    configuration holds an object that is not of a JSON type and the
    pre-build by node succeeds, the call raises [TypeError], which the
    handler of the pre-build does not catch, and logs nothing; the first
    serialization of the same configuration had succeeded. *)
Theorem node_success_object_in_config_raises rt self idx index :
  selects_node (prebuild_index (config self)) = true ->
  node_prebuild rt (uncompiled_payload self) = inr (idx, []) ->
  json_loads rt idx = inr index ->
  serializable (config_dict (config self)) = false ->
  json_dumps true (PDict (page_dicts self)) = inr (uncompiled_payload self)
  /\ exists msg,
       generate_search_index rt self
       = {| out_self := self; out_log := []; out_result := inl (TypeError msg) |}.
Proof.
  intros Hsel Hnode Hloads Hcfg. split; [reflexivity|].
  unfold generate_search_index. rewrite json_dumps_default, Hsel.
  unfold uncompiled_payload in Hnode. rewrite Hnode, Hloads.
  unfold json_dumps. rewrite payload_serializable, Hcfg. simpl. by eexists.
Qed.

Lemma node_success_object_in_config_raises_witness :
  let self := {| _entries := []; config := object_config (PrebuildStr (py "node")) |} in
  json_dumps true (PDict (page_dicts self)) = inr (uncompiled_payload self)
  /\ exists msg,
       generate_search_index working_runtime self
       = {| out_self := self; out_log := []; out_result := inl (TypeError msg) |}.
Proof.
  intros self.
  apply (node_success_object_in_config_raises working_runtime self (py "{}") (PDict []));
    reflexivity.
Defined.

(** X21. The handler of the pre-build by node catches [OSError] and
    [ValueError] only: any other exception of the child process call
    leaves [generate_search_index] as it is, without a warning. *)
Theorem node_other_exception_propagates rt self e :
  selects_node (prebuild_index (config self)) = true ->
  node_prebuild rt (uncompiled_payload self) = inl e ->
  (forall msg, e <> OSError msg) ->
  (forall msg, e <> ValueError msg) ->
  generate_search_index rt self
  = {| out_self := self; out_log := []; out_result := inl e |}.
Proof.
  intros Hsel Hnode Hos Hval. unfold generate_search_index.
  rewrite json_dumps_default, Hsel.
  unfold uncompiled_payload in Hnode. rewrite Hnode.
  destruct e; simpl; try done; [by destruct (Hos msg)|by destruct (Hval msg)].
Qed.

Lemma node_other_exception_propagates_witness :
  let self := {| _entries := []; config := sample_config (py "full") false (PrebuildBool true) |} in
  generate_search_index interrupted_runtime self
  = {| out_self := self; out_log := [];
       out_result := inl (OtherError (py "KeyboardInterrupt")) |}.
Proof.
  intros self.
  apply (node_other_exception_propagates interrupted_runtime self); [reflexivity|reflexivity| |];
    intros msg; discriminate.
Defined.

(** X22. The 'python' strategy has no handler: with lunr.py installed,
    an exception of lunr, an [OSError] as well, leaves the call without a
    warning and without a payload. *)
Theorem python_lunr_exception_propagates rt self e :
  prebuild_index (config self) = PrebuildStr (py "python") ->
  haslunrpy rt = true ->
  lunr rt (_entries self) (lang (config self)) = inl e ->
  generate_search_index rt self
  = {| out_self := self; out_log := []; out_result := inl e |}.
Proof.
  intros Hp Hl He. unfold generate_search_index.
  rewrite json_dumps_default, Hp, Hl, He. reflexivity.
Qed.

Lemma python_lunr_exception_propagates_witness :
  let self := {| _entries := [];
                 config := sample_config (py "full") false (PrebuildStr (py "python")) |} in
  generate_search_index working_runtime self
  = {| out_self := self; out_log := [];
       out_result := inl (OSError (py "No space left on device")) |}.
Proof.
  intros self. apply python_lunr_exception_propagates; reflexivity.
Defined.

Lemma encode_PDict items :
  encode (PDict items)
  = py "{" ++
    join (py ",")
      (map (fun kv => encode_str (fst kv) ++ py ":" ++ snd kv)
         (sort_items (map (fun kv => match kv with (k, x) => (k, encode x) end) items)))
    ++ py "}".
Proof. reflexivity. Qed.

Lemma encode_PList items :
  encode (PList items) = py "[" ++ join (py ",") (map encode items) ++ py "]".
Proof. reflexivity. Qed.

Lemma sort_entry_items (a b c : pystr) :
  sort_items [(py "title", a); (py "text", b); (py "location", c)]
  = [(py "location", c); (py "text", b); (py "title", a)].
Proof. reflexivity. Qed.

Lemma sort_payload_items (a b : pystr) :
  sort_items [(py "docs", a); (py "config", b)] = [(py "config", b); (py "docs", a)].
Proof. reflexivity. Qed.

Lemma encode_entry_dict e :
  encode (entry_dict e)
  = py "{" ++ encode_str (py "location") ++ py ":" ++ encode_str (e_location e)
    ++ py "," ++ encode_str (py "text") ++ py ":" ++ encode_str (e_text e)
    ++ py "," ++ encode_str (py "title") ++ py ":"
    ++ match e_title e with None => py "null" | Some t => encode_str t end
    ++ py "}".
Proof.
  unfold entry_dict. rewrite encode_PDict. cbn [map]. rewrite sort_entry_items.
  cbn [map fst snd join]. rewrite <- !app_assoc.
  by destruct (e_title e).
Qed.

(** X23. The uncompiled payload is one object with the key config
    before the key docs, and docs is the list of the entries in the order
    of the store, each an object with the keys location, text and title
    in this order, title being null for an entry without title; there is
    no space between the tokens. *)
Theorem uncompiled_payload_layout self :
  uncompiled_payload self
  = py "{" ++ encode_str (py "config") ++ py ":" ++ encode (config_dict (config self))
    ++ py "," ++ encode_str (py "docs") ++ py ":" ++ py "["
    ++ join (py ",")
         (map (fun e =>
                 py "{" ++ encode_str (py "location") ++ py ":" ++ encode_str (e_location e)
                 ++ py "," ++ encode_str (py "text") ++ py ":" ++ encode_str (e_text e)
                 ++ py "," ++ encode_str (py "title") ++ py ":"
                 ++ match e_title e with None => py "null" | Some t => encode_str t end
                 ++ py "}")
            (_entries self))
    ++ py "]" ++ py "}".
Proof.
  unfold uncompiled_payload, page_dicts. rewrite encode_PDict. cbn [map].
  rewrite sort_payload_items. cbn [map fst snd join].
  rewrite encode_PList, map_map, (map_ext _ _ encode_entry_dict).
  rewrite <- !app_assoc. reflexivity.
Qed.

(** X24. A page whose document has no heading start tag appends one
    entry, its own, whatever the indexing and the table of contents. *)
Theorem page_without_heading_one_entry rt self page content :
  page_content page = Some content ->
  Forall (fun ev => is_heading_start ev = false) (html_events rt content) ->
  exists self' page_entry,
    add_entry_from_context rt self page = inr self'
    /\ _entries self' = _entries self ++ [page_entry]
    /\ e_title page_entry = Some (compose_title (config self) page)
    /\ e_location page_entry = page_url page.
Proof.
  intros Hcontent Hev.
  destruct (add_entry_from_context_sections rt self page content Hcontent)
    as (self' & Hrun & _ & Hent).
  destruct (feed_no_heading _ ContentParser_init Hev eq_refl eq_refl) as [Hdata _].
  fold (parsed rt content) in Hdata. rewrite Hdata in Hent.
  eexists self', _. split; [exact Hrun|]. split; [exact Hent|]. done.
Qed.

Lemma page_without_heading_one_entry_witness :
  let self := SearchIndex_init (sample_config (py "full") true (PrebuildBool false)) in
  exists self' page_entry,
    add_entry_from_context plain_runtime self sample_page = inr self'
    /\ _entries self' = _entries self ++ [page_entry]
    /\ e_title page_entry = Some (compose_title (config self) sample_page)
    /\ e_location page_entry = page_url sample_page.
Proof.
  intros self.
  apply (page_without_heading_one_entry plain_runtime self sample_page (py "<html>"));
    [reflexivity|repeat constructor].
Defined.
